(** * Desktop notifications for Go music players: the dispatch logic

    A shallow embedding of [interface.go] and [notifier_linux.go].

    The Go code talks to the notification daemon through the godbus
    library.  That library is not part of the package, so the session bus
    is a parameter here: a [Bus] record says whether connecting succeeds
    and what every method call is answered with.  Everything the package
    does to the bus is appended to a trace of [Event]s, which is what the
    theorems observe ("a transport call was made" is "a [Called] event was
    added"). *)

From Stdlib Require Import String Ascii List ZArith Bool Lia.
Import ListNotations.
Open Scope string_scope.

(** ** Values that cross the bus *)

(** Go's [error] values: the ones the bus library hands back, and the ones
    [fmt.Errorf(prefix + "%w", cause)] builds around them. *)
Inductive error : Type :=
| BusError (msg : string)
| Errorf (prefix : string) (cause : error).

Fixpoint Error (e : error) : string :=
  match e with
  | BusError msg => msg
  | Errorf prefix cause => prefix ++ Error cause
  end.

Definition Unwrap (e : error) : option error :=
  match e with
  | BusError _ => None
  | Errorf _ cause => Some cause
  end.

(** The dynamically typed values of a message ([interface{}] in the Go
    code): only the shapes the package sends or inspects.  [VHints] is a
    [map[string]dbus.Variant]. *)
#[local] Set Warnings "-register-all".
Inductive Value : Type :=
| VString (s : string)
| VUint32 (n : Z)
| VInt32 (n : Z)
| VStrings (l : list string)
| VHints (m : list (string * Value)).

(** [*dbus.Call], as far as the package reads it. *)
Record Call : Type := mkCall {
  Err : option error;
  Body : list Value
}.

Record MethodCall : Type := mkMethodCall {
  mc_dest : string;
  mc_path : string;
  mc_method : string;
  mc_flags : Z;
  mc_args : list Value
}.

(** ** The bus *)

Definition Conn := nat.

(** What happened on the bus, newest event first. *)
Inductive Event : Type :=
| Connected (c : Conn)
| Called (c : Conn) (m : MethodCall)
| Closed (c : Conn).

Definition World := list Event.

(** The environment: the outcome of connecting, the answer to each method
    call and the outcome of closing, each of which may depend on all that
    happened before. *)
Record Bus : Type := mkBus {
  connect_error : World -> option error;
  reply : World -> Conn -> MethodCall -> Call;
  close_error : World -> Conn -> option error
}.

(** The connections that are open after a trace. *)
Fixpoint live (w : World) : list Conn :=
  match w with
  | [] => []
  | Connected c :: w' => c :: live w'
  | Called _ _ :: w' => live w'
  | Closed c :: w' => remove Nat.eq_dec c (live w')
  end.

(** The method calls of a trace, newest first. *)
Fixpoint calls (w : World) : list MethodCall :=
  match w with
  | [] => []
  | Called _ m :: w' => m :: calls w'
  | _ :: w' => calls w'
  end.

(** ** A state monad with panics *)

Inductive Result (A : Type) : Type :=
| Val (a : A)
| Panic.
Arguments Val {A} a.
Arguments Panic {A}.

Definition M (S A : Type) : Type := S -> Result A * S.

Definition ret {S A : Type} (a : A) : M S A := fun s => (Val a, s).

Definition bind {S A B : Type} (m : M S A) (k : A -> M S B) : M S B :=
  fun s =>
    match m s with
    | (Val a, s') => k a s'
    | (Panic, s') => (Panic, s')
    end.

Definition panic {S A : Type} : M S A := fun s => (Panic, s).
Definition modify {S : Type} (f : S -> S) : M S unit := fun s => (Val tt, f s).

Declare Scope go_scope.
Delimit Scope go_scope with go.
Notation "x <- m ;; k" := (bind m (fun x => k))
  (at level 61, m at next level, right associativity) : go_scope.
Notation "m ;;; k" := (bind m (fun _ => k))
  (at level 61, right associativity) : go_scope.
Open Scope go_scope.

(** ** interface.go *)

Record TrackInfo : Type := mkTrackInfo {
  Title : string;
  Artist : string;
  Album : string;
  Station : string;
  ImageURL : string;
  Duration : Z
}.

(** [type PlaybackState string] *)
Definition PlaybackState := string.

Definition StatePlaying : PlaybackState := "Playing".
Definition StatePaused : PlaybackState := "Paused".
Definition StateStopped : PlaybackState := "Stopped".

Record Options : Type := mkOptions {
  AppName : string;
  Icon : string;
  Timeout : Z;
  NotifyOnPause : bool;
  ReplaceExisting : bool
}.

Definition DefaultOptions (appName : string) : Options :=
  {| AppName := appName;
     Icon := "media-playback-start";
     Timeout := 5000;
     NotifyOnPause := false;
     ReplaceExisting := true |}.

(** ** notifier_linux.go *)

Definition notificationsInterface : string := "org.freedesktop.Notifications".
Definition notificationsPath : string := "/org/freedesktop/Notifications".

(** [conn] is a pointer in the Go code and can be nil. *)
Record Notifier : Type := mkNotifier {
  conn : option Conn;
  options : Options;
  lastID : string;
  replaceID : Z
}.

Definition set_lastID (id : string) (n : Notifier) : Notifier :=
  {| conn := conn n; options := options n; lastID := id; replaceID := replaceID n |}.

Definition set_replaceID (id : Z) (n : Notifier) : Notifier :=
  {| conn := conn n; options := options n; lastID := lastID n; replaceID := id |}.

(** [conn.Object(dest, path)] *)
Record BusObject : Type := mkBusObject {
  obj_conn : option Conn;
  obj_dest : string;
  obj_path : string
}.

(** The state a method of [*Notifier] runs in: the receiver and the bus. *)
Record State : Type := mkState {
  this : Notifier;
  trace : World
}.

Section WithBus.

Variable bus : Bus.

(** [dbus.ConnectSessionBus()]: a fresh connection, or an error. *)
Definition ConnectSessionBus : M World (Conn + error) :=
  fun w =>
    match connect_error bus w with
    | Some e => (Val (inr e), w)
    | None => let c := length w in (Val (inl c), Connected c :: w)
    end.

(** [conn.Close()] *)
Definition conn_Close (c : Conn) : M World (option error) :=
  fun w => (Val (close_error bus w c), Closed c :: w).

(** [obj.Call(method, flags, args...)]: a blocking round trip.  Through a
    nil connection it is a nil dereference. *)
Definition obj_Call (o : BusObject) (method : string) (flags : Z)
    (args : list Value) : M World Call :=
  match obj_conn o with
  | None => panic
  | Some c =>
      fun w =>
        let m := mkMethodCall (obj_dest o) (obj_path o) method flags args in
        (Val (reply bus w c m), Called c m :: w)
  end.

(** Run a bus operation from inside a method. *)
Definition on_bus {A : Type} (m : M World A) : M State A :=
  fun s =>
    let (r, w) := m (trace s) in (r, mkState (this s) w).

Definition self : M State Notifier := fun s => (Val (this s), s).

Definition update (f : Notifier -> Notifier) : M State unit :=
  modify (fun s => mkState (f (this s)) (trace s)).

Definition NewNotifier (opts : Options) : M World (Notifier + error) :=
  r <- ConnectSessionBus ;;
  match r with
  | inr err => ret (inr (Errorf "failed to connect to session bus: " err))
  | inl c =>
      let obj := mkBusObject (Some c) notificationsInterface notificationsPath in
      call <- obj_Call obj (notificationsInterface ++ ".GetCapabilities") 0 [] ;;
      match Err call with
      | Some e =>
          conn_Close c ;;;
          ret (inr (Errorf "D-Bus notifications not available: " e))
      | None =>
          ret (inl {| conn := Some c; options := opts; lastID := ""; replaceID := 0 |})
      end
  end.

Definition Close : M State (option error) :=
  n <- self ;;
  match conn n with
  | Some c => on_bus (conn_Close c)
  | None => ret None
  end.

(** The byte string the source puts before the body of a paused track,
    followed by a space. *)
Definition pausePrefix : string :=
  String "195" (String "162" (String "194" (String "184" " "))).

Definition newline : string := String "010" "".

Definition nonempty (s : string) : bool := negb (s =? "").

Definition showNotification (track : TrackInfo) (state : PlaybackState)
    : M State (option error) :=
  n <- self ;;
  let obj := mkBusObject (conn n) notificationsInterface notificationsPath in
  let body :=
    if nonempty (Artist track) && nonempty (Album track)
    then Artist track ++ newline ++ Album track
    else if nonempty (Artist track) then Artist track
    else if nonempty (Station track) then Station track
    else "Now Playing" in
  let body := if state =? StatePaused then pausePrefix ++ body else body in
  let summary := Title track in
  let summary := if summary =? "" then "Now Playing" else summary in
  let appName := AppName (options n) in
  let appName := if appName =? "" then "Music Player" else appName in
  let icon := Icon (options n) in
  let icon := if icon =? "" then "media-playback-start" else icon in
  let actions : list string := [] in
  let hints : list (string * Value) := [] in
  let replaceID := replaceID n in
  let replaceID := if negb (ReplaceExisting (options n)) then 0%Z else replaceID in
  call <- on_bus (obj_Call obj (notificationsInterface ++ ".Notify") 0
            [VString appName; VUint32 replaceID; VString icon; VString summary;
             VString body; VStrings actions; VHints hints;
             VInt32 (Timeout (options n))]) ;;
  match Err call with
  | Some e => ret (Some (Errorf "failed to show notification: " e))
  | None =>
      (if ReplaceExisting (options n) then
         match Body call with
         | VUint32 id :: _ => update (set_replaceID id)
         | _ => ret tt
         end
       else ret tt) ;;;
      ret None
  end.

(** [fmt.Sprintf("%s-%s-%s", track.Title, track.Artist, track.Album)] *)
Definition currentID (track : TrackInfo) : string :=
  Title track ++ "-" ++ Artist track ++ "-" ++ Album track.

Definition Notify (track : option TrackInfo) (state : PlaybackState)
    : M State (option error) :=
  match track with
  | None => ret None
  | Some track =>
      if (Title track =? "") && (Artist track =? "") then ret None
      else
        n <- self ;;
        if (state =? StatePaused) && negb (NotifyOnPause (options n)) then ret None
        else
          let currentID := currentID track in
          if currentID =? lastID n then ret None
          else
            update (set_lastID currentID) ;;;
            showNotification track state
  end.

Definition NotifyNow (track : option TrackInfo) (state : PlaybackState)
    : M State (option error) :=
  match track with
  | None => ret None
  | Some track => showNotification track state
  end.

Definition GetCapabilities : M State (list string + error) :=
  n <- self ;;
  let obj := mkBusObject (conn n) notificationsInterface notificationsPath in
  call <- on_bus (obj_Call obj (notificationsInterface ++ ".GetCapabilities") 0 []) ;;
  match Err call with
  | Some e => ret (inr (Errorf "failed to get capabilities: " e))
  | None =>
      match Body call with
      | VStrings caps :: _ => ret (inl caps)
      | _ => ret (inl [])
      end
  end.

End WithBus.

Arguments showNotification bus track state _ : simpl never.

(** ** The fields of a notification *)

Record Formatted : Type := mkFormatted {
  f_appName : string;
  f_icon : string;
  f_summary : string;
  f_body : string;
  f_actions : list string;
  f_hints : list (string * Value);
  f_timeout : Z
}.

Definition or_default (s default : string) : string :=
  match s with
  | EmptyString => default
  | String _ _ => s
  end.

Definition body_base (track : TrackInfo) : string :=
  match Artist track, Album track, Station track with
  | String _ _, String _ _, _ => Artist track ++ newline ++ Album track
  | String _ _, EmptyString, _ => Artist track
  | EmptyString, _, String _ _ => Station track
  | EmptyString, _, EmptyString => "Now Playing"
  end.

(** What lines 96 to 129 of [showNotification] compute before the call,
    gathered in one record; [showNotification_run] below proves it equal
    to the inline code. *)
Definition notification_fields (track : TrackInfo) (state : PlaybackState)
    (opts : Options) : Formatted :=
  {| f_appName := or_default (AppName opts) "Music Player";
     f_icon := or_default (Icon opts) "media-playback-start";
     f_summary := or_default (Title track) "Now Playing";
     f_body :=
       if string_dec state StatePaused
       then pausePrefix ++ body_base track
       else body_base track;
     f_actions := [];
     f_hints := [];
     f_timeout := Timeout opts |}.

(** The replace id of a call: the stored handle in replace mode, 0
    otherwise. *)
Definition replace_target (n : Notifier) : Z :=
  if ReplaceExisting (options n) then replaceID n else 0%Z.

(** The [Notify] message of the wire protocol for a track, in the
    positional order (app name, replace id, icon, summary, body, actions,
    hints, expire timeout). *)
Definition notify_message (n : Notifier) (track : TrackInfo)
    (state : PlaybackState) : MethodCall :=
  let f := notification_fields track state (options n) in
  {| mc_dest := "org.freedesktop.Notifications";
     mc_path := "/org/freedesktop/Notifications";
     mc_method := "org.freedesktop.Notifications.Notify";
     mc_flags := 0;
     mc_args := [VString (f_appName f); VUint32 (replace_target n);
                 VString (f_icon f); VString (f_summary f); VString (f_body f);
                 VStrings (f_actions f); VHints (f_hints f);
                 VInt32 (f_timeout f)] |}.

(** The replace id argument of a message (the second positional one). *)
Definition replaces_id (m : MethodCall) : option Value := nth_error (mc_args m) 1.

(** What a reply to [Notify] leaves in the notifier, and what the caller
    gets back. *)
Definition store_handle (n : Notifier) (call : Call) : Notifier :=
  match Err call, ReplaceExisting (options n), Body call with
  | None, true, VUint32 id :: _ => set_replaceID id n
  | _, _, _ => n
  end.

Definition transport_result (call : Call) : option error :=
  match Err call with
  | Some e => Some (Errorf "failed to show notification: " e)
  | None => None
  end.

(** The three guards of [Notify] that come after the nil check. *)
Definition nothing_playing (track : TrackInfo) : bool :=
  (Title track =? "") && (Artist track =? "").

Definition pause_suppressed (n : Notifier) (state : PlaybackState) : bool :=
  (state =? StatePaused) && negb (NotifyOnPause (options n)).

Definition duplicate (n : Notifier) (track : TrackInfo) : bool :=
  currentID track =? lastID n.

(** ** The formatter, as the specification words it *)

(** The pause glyph, U+23F8, in UTF-8: bytes e2 8f b8. *)
Definition pause_glyph : string :=
  String "226" (String "143" (String "184" "")).

Definition is_empty (s : string) : bool :=
  match s with
  | EmptyString => true
  | String _ _ => false
  end.

(** Rules 1 to 6 of the formatter.  The line feed between artist and
    album is byte 10. *)
Definition format_spec (track : TrackInfo) (state : PlaybackState)
    (opts : Options) : Formatted :=
  let base :=
    if negb (is_empty (Artist track)) && negb (is_empty (Album track))
    then Artist track ++ String "010" "" ++ Album track
    else if negb (is_empty (Artist track)) then Artist track
    else if negb (is_empty (Station track)) then Station track
    else "Now Playing" in
  {| f_appName := if is_empty (AppName opts) then "Music Player" else AppName opts;
     f_icon := if is_empty (Icon opts) then "media-playback-start" else Icon opts;
     f_summary := if is_empty (Title track) then "Now Playing" else Title track;
     f_body :=
       if string_dec state "Paused"
       then pause_glyph ++ " " ++ base
       else base;
     f_actions := [];
     f_hints := [];
     f_timeout := Timeout opts |}.

(** Does a field contain the separator of the identity key? *)
Fixpoint has_dash (s : string) : bool :=
  match s with
  | EmptyString => false
  | String a s' => (a =? "-")%char || has_dash s'
  end.

(** ** Sample buses, notifiers and tracks *)

(** A daemon that is always there and numbers its notifications 1, 2, ... *)
Definition counting_bus : Bus :=
  {| connect_error := fun _ => None;
     reply := fun w _ _ => mkCall None [VUint32 (Z.of_nat (S (length (calls w))))];
     close_error := fun _ _ => None |}.

(** A session bus on which no notification service answers. *)
Definition deaf_bus : Bus :=
  {| connect_error := fun _ => None;
     reply := fun _ _ _ =>
       mkCall (Some (BusError "The name org.freedesktop.Notifications was not provided by any .service files")) [];
     close_error := fun _ _ => None |}.

Definition track (title artist album : string) : TrackInfo :=
  mkTrackInfo title artist album "" "" 0.

Definition bohemian : TrackInfo :=
  track "Bohemian Rhapsody" "Queen" "A Night at the Opera".

Definition bohemian_on_air : TrackInfo :=
  mkTrackInfo "Bohemian Rhapsody" "Queen" "A Night at the Opera"
    "KEXP 90.3 FM" "http://example.org/queen.png" 354000000000.

Definition different_song : TrackInfo := track "Different Song" "" "".

Definition silence : TrackInfo := track "" "" "Greatest Hits".

(** Two tracks that differ in title and artist. *)
Definition live_by_jayz : TrackInfo := track "Encore-Live" "Jay-Z" "Unplugged".
Definition encore_by_livejayz : TrackInfo := track "Encore" "Live-Jay-Z" "Unplugged".

(** A notifier as [NewNotifier] returns it, on the first connection of a
    process. *)
Definition fresh (opts : Options) : State :=
  mkState {| conn := Some 0%nat; options := opts; lastID := ""; replaceID := 0 |}
          [Called 0%nat (mkMethodCall notificationsInterface notificationsPath
                           "org.freedesktop.Notifications.GetCapabilities" 0 []);
           Connected 0%nat].

Definition stacking (appName : string) : Options :=
  {| AppName := appName;
     Icon := "audio-headphones";
     Timeout := 10000;
     NotifyOnPause := true;
     ReplaceExisting := false |}.

(** A machine without a session bus. *)
Definition no_session_bus : Bus :=
  {| connect_error := fun _ =>
       Some (BusError "dbus: DBUS_SESSION_BUS_ADDRESS not set");
     reply := fun _ _ _ => mkCall (Some (BusError "dbus: connection closed by user")) [];
     close_error := fun _ _ => None |}.

(** A daemon that answers every call without an error and without data. *)
Definition mute_bus : Bus :=
  {| connect_error := fun _ => None;
     reply := fun _ _ _ => mkCall None [];
     close_error := fun _ _ => None |}.

(** A daemon that advertises two capabilities, whatever it is asked. *)
Definition capable_bus : Bus :=
  {| connect_error := fun _ => None;
     reply := fun _ _ _ => mkCall None [VStrings ["actions"; "body-markup"]];
     close_error := fun _ _ => None |}.

(** ** Traces and sessions *)

(** Connection ids are handed out in order: a [Connected] event carries
    the number of events before it, as [ConnectSessionBus] numbers them. *)
Fixpoint well_formed (w : World) : bool :=
  match w with
  | [] => true
  | Connected c :: w' => Nat.eqb c (length w') && well_formed w'
  | _ :: w' => well_formed w'
  end.

(** An event that is a method call on connection [c]. *)
Definition call_on (c : Conn) (ev : Event) : bool :=
  match ev with
  | Called c' _ => Nat.eqb c' c
  | _ => false
  end.

(** What a player does with its notifier between construction and
    teardown: any sequence of these calls. *)
Inductive Op : Type :=
| OpNotify (track : option TrackInfo) (state : PlaybackState)
| OpNotifyNow (track : option TrackInfo) (state : PlaybackState)
| OpGetCapabilities.

Definition do_op (bus : Bus) (op : Op) : M State unit :=
  match op with
  | OpNotify t st => Notify bus t st ;;; ret tt
  | OpNotifyNow t st => NotifyNow bus t st ;;; ret tt
  | OpGetCapabilities => GetCapabilities bus ;;; ret tt
  end.

(** The calls are made one after the other; a panic ends the session. *)
Fixpoint run (bus : Bus) (ops : list Op) : M State unit :=
  match ops with
  | [] => ret tt
  | op :: ops' => do_op bus op ;;; run bus ops'
  end.

(** The message of [GetCapabilities]. *)
Definition capabilities_message : MethodCall :=
  {| mc_dest := "org.freedesktop.Notifications";
     mc_path := "/org/freedesktop/Notifications";
     mc_method := "org.freedesktop.Notifications.GetCapabilities";
     mc_flags := 0;
     mc_args := [] |}.

(** What one call of a session does. *)
Record step_ok (c : Conn) (op : Op) (n n' : Notifier) (evs : World) : Prop := {
  step_conn : conn n' = Some c;
  step_options : options n' = options n;
  step_length : length evs <= 1;
  step_calls : forallb (call_on c) evs = true;
  step_identity :
    lastID n' = lastID n \/
    exists t st, op = OpNotify (Some t) st /\ lastID n' = currentID t;
  step_stacking :
    ReplaceExisting (options n) = false ->
    replaceID n' = replaceID n /\
    Forall (fun m => m = capabilities_message \/
                     replaces_id m = Some (VUint32 0)) (calls evs)
}.

(** ** Running the methods *)

Section Runs.

Variable bus : Bus.

Lemma or_default_eqb (s d : string) :
  (if s =? "" then d else s) = or_default s d.
Proof. destruct s; reflexivity. Qed.

Lemma body_base_code (track : TrackInfo) :
  (if nonempty (Artist track) && nonempty (Album track)
   then Artist track ++ newline ++ Album track
   else if nonempty (Artist track) then Artist track
   else if nonempty (Station track) then Station track
   else "Now Playing") = body_base track.
Proof.
  unfold body_base, nonempty.
  destruct (Artist track), (Album track), (Station track); reflexivity.
Qed.

Lemma paused_code (state : PlaybackState) (b : string) :
  (if state =? StatePaused then pausePrefix ++ b else b) =
  (if string_dec state StatePaused then pausePrefix ++ b else b).
Proof.
  destruct (string_dec state StatePaused) as [E | E].
  - apply String.eqb_eq in E. now rewrite E.
  - apply String.eqb_neq in E. now rewrite E.
Qed.

(** With a connection, [showNotification] makes exactly one call, the
    [Notify] message, and stores what the reply says. *)
Lemma showNotification_run (c : Conn) (n : Notifier) (w : World)
    (track : TrackInfo) (state : PlaybackState) :
  conn n = Some c ->
  showNotification bus track state (mkState n w) =
    (Val (transport_result (reply bus w c (notify_message n track state))),
     mkState (store_handle n (reply bus w c (notify_message n track state)))
             (Called c (notify_message n track state) :: w)).
Proof.
  intros Hc.
  unfold showNotification, bind, self, on_bus, obj_Call; cbn [this trace obj_conn obj_dest obj_path].
  rewrite Hc, body_base_code, paused_code, !or_default_eqb.
  assert (Hm : mkMethodCall notificationsInterface notificationsPath
                 (notificationsInterface ++ ".Notify") 0
                 [VString (or_default (AppName (options n)) "Music Player");
                  VUint32 (if negb (ReplaceExisting (options n)) then 0%Z else replaceID n);
                  VString (or_default (Icon (options n)) "media-playback-start");
                  VString (or_default (Title track) "Now Playing");
                  VString (if string_dec state StatePaused
                           then pausePrefix ++ body_base track else body_base track);
                  VStrings []; VHints []; VInt32 (Timeout (options n))]
               = notify_message n track state).
  { unfold notify_message, replace_target, notification_fields; cbn.
    destruct (ReplaceExisting (options n)); reflexivity. }
  rewrite Hm.
  set (call := reply bus w c (notify_message n track state)).
  unfold transport_result, store_handle.
  destruct (Err call) as [e |]; [reflexivity |].
  destruct (ReplaceExisting (options n)); [| reflexivity].
  destruct (Body call) as [| [s | id | i | l | m] rest]; reflexivity.
Qed.

(** Without one it panics before anything reaches the bus. *)
Lemma showNotification_nil (n : Notifier) (w : World)
    (track : TrackInfo) (state : PlaybackState) :
  conn n = None ->
  showNotification bus track state (mkState n w) = (Panic, mkState n w).
Proof.
  intros Hc.
  unfold showNotification, bind, self, on_bus, obj_Call; cbn [this trace obj_conn].
  now rewrite Hc.
Qed.

(** [Notify] on a track: nothing when a guard fires, otherwise the
    identity is stored and the notification shown. *)
Lemma Notify_run (n : Notifier) (w : World) (track : TrackInfo)
    (state : PlaybackState) :
  Notify bus (Some track) state (mkState n w) =
    if nothing_playing track || pause_suppressed n state || duplicate n track
    then (Val None, mkState n w)
    else showNotification bus track state
           (mkState (set_lastID (currentID track) n) w).
Proof.
  unfold Notify, nothing_playing, pause_suppressed, duplicate.
  destruct ((Title track =? "") && (Artist track =? "")); [reflexivity |].
  unfold bind at 1, self at 1; cbn [this orb].
  destruct ((state =? StatePaused) && negb (NotifyOnPause (options n))); [reflexivity |].
  cbn [orb].
  destruct (currentID track =? lastID n); reflexivity.
Qed.

End Runs.

(** ** Guards *)

Lemma nothing_playing_false (t : TrackInfo) :
  Title t <> "" \/ Artist t <> "" -> nothing_playing t = false.
Proof.
  unfold nothing_playing.
  intros [H | H]; apply String.eqb_neq in H; rewrite H;
    [reflexivity | apply andb_false_r].
Qed.

Lemma pause_suppressed_false (n : Notifier) (state : PlaybackState) :
  state <> StatePaused \/ NotifyOnPause (options n) = true ->
  pause_suppressed n state = false.
Proof.
  unfold pause_suppressed.
  intros [H | H].
  - apply String.eqb_neq in H. now rewrite H.
  - rewrite H. apply andb_false_r.
Qed.

Lemma duplicate_false (n : Notifier) (t : TrackInfo) :
  currentID t <> lastID n -> duplicate n t = false.
Proof. intros H. now apply String.eqb_neq. Qed.

(** A guard fires: nothing is sent, nothing is stored. *)
Lemma Notify_suppressed (bus : Bus) (n : Notifier) (w : World)
    (t : TrackInfo) (state : PlaybackState) :
  nothing_playing t || pause_suppressed n state || duplicate n t = true ->
  Notify bus (Some t) state (mkState n w) = (Val None, mkState n w).
Proof. intros H. now rewrite Notify_run, H. Qed.

(** No guard fires: the identity is stored, one message is sent and the
    reply is recorded. *)
Lemma Notify_emits (bus : Bus) (c : Conn) (n : Notifier) (w : World)
    (t : TrackInfo) (state : PlaybackState) :
  conn n = Some c ->
  nothing_playing t = false ->
  pause_suppressed n state = false ->
  duplicate n t = false ->
  Notify bus (Some t) state (mkState n w) =
    let n' := set_lastID (currentID t) n in
    let m := notify_message n' t state in
    (Val (transport_result (reply bus w c m)),
     mkState (store_handle n' (reply bus w c m)) (Called c m :: w)).
Proof.
  intros Hc H1 H2 H3.
  rewrite Notify_run, H1, H2, H3. cbn [orb].
  now apply showNotification_run.
Qed.

(** A reply changes at most the stored handle. *)
Lemma store_handle_frame (n : Notifier) (call : Call) :
  conn (store_handle n call) = conn n /\
  options (store_handle n call) = options n /\
  lastID (store_handle n call) = lastID n.
Proof.
  unfold store_handle.
  destruct (Err call), (ReplaceExisting (options n)), (Body call) as [| [] ?];
    repeat split.
Qed.

Lemma store_handle_failed (n : Notifier) (call : Call) (e : error) :
  Err call = Some e -> store_handle n call = n.
Proof. unfold store_handle. now intros ->. Qed.

Lemma store_handle_replied (n : Notifier) (call : Call) (h : Z) (rest : list Value) :
  ReplaceExisting (options n) = true ->
  Err call = None ->
  Body call = VUint32 h :: rest ->
  store_handle n call = set_replaceID h n.
Proof. unfold store_handle. now intros -> -> ->. Qed.

(** What [Notify] leaves behind, whatever it did: the connection and the
    options are the ones it found. *)
Lemma Notify_frame (bus : Bus) (n : Notifier) (w : World)
    (t : TrackInfo) (state : PlaybackState) :
  let s := snd (Notify bus (Some t) state (mkState n w)) in
  conn (this s) = conn n /\ options (this s) = options n.
Proof.
  cbv zeta. rewrite Notify_run.
  destruct (nothing_playing t || pause_suppressed n state || duplicate n t);
    [now split |].
  destruct (conn n) as [c |] eqn:Hc.
  - rewrite (showNotification_run bus c) by exact Hc. cbn [snd this].
    destruct (store_handle_frame (set_lastID (currentID t) n)
                (reply bus w c (notify_message (set_lastID (currentID t) n) t state)))
      as (-> & -> & _).
    now split.
  - rewrite showNotification_nil by exact Hc. now split.
Qed.

(** If the nothing-playing and pause guards let a track through, its
    identity is the stored one afterwards. *)
Lemma Notify_stores_identity (bus : Bus) (n : Notifier) (w : World)
    (t : TrackInfo) (state : PlaybackState) :
  nothing_playing t = false ->
  pause_suppressed n state = false ->
  lastID (this (snd (Notify bus (Some t) state (mkState n w)))) = currentID t.
Proof.
  intros H1 H2. rewrite Notify_run, H1, H2. cbn [orb].
  unfold duplicate. destruct (currentID t =? lastID n) eqn:E.
  - apply String.eqb_eq in E. now cbn.
  - destruct (conn n) as [c |] eqn:Hc.
    + rewrite (showNotification_run bus c) by exact Hc. cbn [snd this].
      now destruct (store_handle_frame (set_lastID (currentID t) n)
                (reply bus w c (notify_message (set_lastID (currentID t) n) t state)))
        as (_ & _ & ->).
    + now rewrite showNotification_nil by exact Hc.
Qed.

(** The identity key reads only title, artist and album. *)
Lemma currentID_key (t1 t2 : TrackInfo) :
  Title t2 = Title t1 -> Artist t2 = Artist t1 -> Album t2 = Album t1 ->
  currentID t2 = currentID t1.
Proof. unfold currentID. now intros -> -> ->. Qed.

(** Calling [Notify] again on a track with the same title, artist and
    album, in the same playback state, does nothing. *)
Lemma Notify_again (bus : Bus) (n : Notifier) (w : World)
    (t1 t2 : TrackInfo) (state : PlaybackState) :
  Title t2 = Title t1 -> Artist t2 = Artist t1 -> Album t2 = Album t1 ->
  let s1 := snd (Notify bus (Some t1) state (mkState n w)) in
  Notify bus (Some t2) state s1 = (Val None, s1).
Proof.
  intros Ht Ha Hl s1.
  pose proof (Notify_frame bus n w t1 state) as [_ Ho]. fold s1 in Ho.
  assert (Hnp : nothing_playing t2 = nothing_playing t1)
    by (unfold nothing_playing; now rewrite Ht, Ha).
  assert (Hps : pause_suppressed (this s1) state = pause_suppressed n state)
    by (unfold pause_suppressed; now rewrite Ho).
  destruct s1 as [n1 w1] eqn:Es1. cbn [this] in *.
  apply Notify_suppressed. rewrite Hnp, Hps.
  destruct (nothing_playing t1) eqn:H1; [reflexivity |].
  destruct (pause_suppressed n state) eqn:H2; [reflexivity |].
  cbn [orb]. unfold duplicate.
  pose proof (Notify_stores_identity bus n w t1 state H1 H2) as Hid.
  fold s1 in Hid. rewrite Es1 in Hid. cbn [this] in Hid.
  rewrite Hid, (currentID_key t1 t2 Ht Ha Hl). apply String.eqb_refl.
Qed.

Lemma cons_neq {A : Type} (x : A) (l : list A) : x :: l <> l.
Proof.
  intros H. apply (f_equal (@length A)) in H. cbn in H. lia.
Qed.

(** What [Notify] adds to the trace. *)
Lemma Notify_trace (bus : Bus) (n : Notifier) (w : World)
    (t : TrackInfo) (state : PlaybackState) :
  trace (snd (Notify bus (Some t) state (mkState n w))) =
    if nothing_playing t || pause_suppressed n state || duplicate n t then w
    else match conn n with
         | Some c => Called c (notify_message (set_lastID (currentID t) n) t state) :: w
         | None => w
         end.
Proof.
  rewrite Notify_run.
  destruct (nothing_playing t || pause_suppressed n state || duplicate n t);
    [reflexivity |].
  destruct (conn n) as [c |] eqn:Hc.
  - now rewrite (showNotification_run bus c) by exact Hc.
  - now rewrite showNotification_nil by exact Hc.
Qed.

(** ** Deduplication *)

(** C1 (amended).  Two [Notify] calls in a row, in the same playback
    state: the first makes at most one transport call; repeating it with
    the same track makes none, returns no error and leaves the notifier
    and the bus as they were; so does a second call whose track differs
    only in station, image URL or duration.  A second call whose identity
    key differs makes a new transport call, provided neither track has both
    title and artist empty and the state is not a suppressed pause. *)
Theorem Notify_deduplicates (bus : Bus) (n : Notifier) (w : World)
    (t1 t2 : TrackInfo) (state : PlaybackState) :
  let s1 := snd (Notify bus (Some t1) state (mkState n w)) in
  let s2 := snd (Notify bus (Some t2) state s1) in
  (trace s1 = w \/ exists c m, trace s1 = Called c m :: w) /\
  Notify bus (Some t1) state s1 = (Val None, s1) /\
  (Title t2 = Title t1 -> Artist t2 = Artist t1 -> Album t2 = Album t1 ->
   Notify bus (Some t2) state s1 = (Val None, s1)) /\
  (forall c : Conn,
   conn n = Some c ->
   Title t1 <> "" \/ Artist t1 <> "" ->
   Title t2 <> "" \/ Artist t2 <> "" ->
   state <> StatePaused \/ NotifyOnPause (options n) = true ->
   currentID t2 <> currentID t1 ->
   trace s2 =
     Called c (notify_message (set_lastID (currentID t2) (this s1)) t2 state)
       :: trace s1).
Proof.
  intros s1 s2. repeat split.
  - subst s1. rewrite Notify_trace.
    destruct (nothing_playing t1 || pause_suppressed n state || duplicate n t1);
      [now left |].
    destruct (conn n) as [c |]; [right; now eexists _, _ | now left].
  - now apply Notify_again.
  - intros. now apply Notify_again.
  - intros c Hc Ht1 Ht2 Hst Hid.
    pose proof (Notify_frame bus n w t1 state) as [Hc1 Ho1]. fold s1 in Hc1, Ho1.
    pose proof (Notify_stores_identity bus n w t1 state
                  (nothing_playing_false t1 Ht1)
                  (pause_suppressed_false n state Hst)) as Hl1.
    fold s1 in Hl1.
    subst s2. destruct s1 as [n1 w1]. cbn [this trace] in *.
    rewrite Notify_trace, Hc1, Hc.
    rewrite (nothing_playing_false t2 Ht2).
    rewrite pause_suppressed_false by now rewrite Ho1.
    rewrite duplicate_false by now rewrite Hl1.
    reflexivity.
Qed.

Lemma Notify_deduplicates_witness :
  let s1 := snd (Notify counting_bus (Some bohemian) StatePlaying
                   (fresh (DefaultOptions "Foo"))) in
  Notify counting_bus (Some bohemian_on_air) StatePlaying s1 = (Val None, s1) /\
  trace (snd (Notify counting_bus (Some different_song) StatePlaying s1)) =
    Called 0%nat
      (notify_message (set_lastID (currentID different_song) (this s1))
         different_song StatePlaying) :: trace s1.
Proof.
  intros s1.
  split.
  - apply (Notify_deduplicates counting_bus (this (fresh (DefaultOptions "Foo")))
             (trace (fresh (DefaultOptions "Foo"))) bohemian bohemian_on_air
             StatePlaying); reflexivity.
  - apply (Notify_deduplicates counting_bus (this (fresh (DefaultOptions "Foo")))
             (trace (fresh (DefaultOptions "Foo"))) bohemian different_song
             StatePlaying).
    + reflexivity.
    + left; discriminate.
    + left; discriminate.
    + left; discriminate.
    + discriminate.
Defined.

(** C1 as first stated fails: a change of title, artist or album does not
    always cause a transport call.  After "Bohemian Rhapsody" has been
    shown, a track with empty title and artist is held back by the
    nothing-playing guard; and with [NotifyOnPause] off, no change of track
    gets through while the state is [StatePaused]. *)
Lemma Notify_key_change_counterexample :
  let s0 := fresh (DefaultOptions "Foo") in
  let s1 := snd (Notify counting_bus (Some bohemian) StatePlaying s0) in
  (exists m, trace s1 = Called 0%nat m :: trace s0) /\
  Title silence <> Title bohemian /\
  Artist silence <> Artist bohemian /\
  Album silence <> Album bohemian /\
  Notify counting_bus (Some silence) StatePlaying s1 = (Val None, s1) /\
  Title different_song <> Title bohemian /\
  Notify counting_bus (Some different_song) StatePaused
    (snd (Notify counting_bus (Some bohemian) StatePaused s0)) = (Val None, s0).
Proof.
  cbv zeta. split; [eexists; reflexivity |].
  repeat split; try discriminate.
Qed.

(** Where the first separator is, when the parts before it are free of
    it. *)
Lemma split_at_dash (a b r1 r2 : string) :
  has_dash a = false -> has_dash b = false ->
  a ++ "-" ++ r1 = b ++ "-" ++ r2 -> a = b /\ r1 = r2.
Proof.
  revert b. induction a as [| x a IH]; intros [| y b] Ha Hb H; cbn in *.
  - now injection H.
  - injection H as Hx _. subst y.
    now rewrite Ascii.eqb_refl in Hb.
  - injection H as Hx _. subst x.
    now rewrite Ascii.eqb_refl in Ha.
  - injection H as Hx H. subst y.
    apply orb_false_elim in Ha as [_ Ha], Hb as [_ Hb].
    destruct (IH b Ha Hb H) as [-> ->]. now split.
Qed.

(** The key tells tracks apart as long as no title and no artist
    contains a dash. *)
Lemma currentID_injective_without_dash (t1 t2 : TrackInfo) :
  has_dash (Title t1) = false -> has_dash (Artist t1) = false ->
  has_dash (Title t2) = false -> has_dash (Artist t2) = false ->
  currentID t1 = currentID t2 ->
  Title t1 = Title t2 /\ Artist t1 = Artist t2 /\ Album t1 = Album t2.
Proof.
  unfold currentID. intros HT1 HA1 HT2 HA2 H.
  apply split_at_dash in H as [HT H]; try assumption.
  apply split_at_dash in H as [HA HL]; try assumption.
  now repeat split.
Qed.

(** C2.  The identity key is not injective: "Encore-Live" by "Jay-Z" and
    "Encore" by "Live-Jay-Z" get the same key, so [Notify] takes the
    second for the first and sends nothing. *)
Theorem currentID_collision :
  (Title live_by_jayz, Artist live_by_jayz, Album live_by_jayz) <>
  (Title encore_by_livejayz, Artist encore_by_livejayz, Album encore_by_livejayz) /\
  currentID live_by_jayz = currentID encore_by_livejayz /\
  let s0 := fresh (DefaultOptions "Foo") in
  let s1 := snd (Notify counting_bus (Some live_by_jayz) StatePlaying s0) in
  (exists m, trace s1 = Called 0%nat m :: trace s0) /\
  Notify counting_bus (Some encore_by_livejayz) StatePlaying s1 = (Val None, s1).
Proof.
  split; [discriminate |]. split; [reflexivity |].
  cbv zeta. split; [eexists; reflexivity | reflexivity].
Qed.

(** ** Replacing and stacking *)

Lemma replaces_id_message (n : Notifier) (t : TrackInfo) (state : PlaybackState) :
  replaces_id (notify_message n t state) = Some (VUint32 (replace_target n)).
Proof. reflexivity. Qed.

(** C3.  In replace mode, once a [Notify] call has been answered with
    handle [h], the next [Notify] call for a different track passes [h] as
    the replace id.  In stacking mode every call made by [Notify] or
    [NotifyNow] passes replace id 0, whatever handle is stored. *)
Theorem replace_semantics (bus : Bus) (c : Conn) (n : Notifier) (w : World)
    (t1 t2 : TrackInfo) (st1 st2 : PlaybackState) :
  conn n = Some c ->
  let m1 := notify_message (set_lastID (currentID t1) n) t1 st1 in
  let s1 := snd (Notify bus (Some t1) st1 (mkState n w)) in
  let s2 := snd (Notify bus (Some t2) st2 s1) in
  (ReplaceExisting (options n) = true ->
   forall (h : Z) (rest : list Value),
   Title t1 <> "" \/ Artist t1 <> "" ->
   st1 <> StatePaused \/ NotifyOnPause (options n) = true ->
   currentID t1 <> lastID n ->
   Err (reply bus w c m1) = None ->
   Body (reply bus w c m1) = VUint32 h :: rest ->
   Title t2 <> "" \/ Artist t2 <> "" ->
   st2 <> StatePaused \/ NotifyOnPause (options n) = true ->
   currentID t2 <> currentID t1 ->
   exists m2, trace s2 = Called c m2 :: Called c m1 :: w /\
              replaces_id m2 = Some (VUint32 h)) /\
  (ReplaceExisting (options n) = false ->
   (trace s1 = w \/
    exists m, trace s1 = Called c m :: w /\ replaces_id m = Some (VUint32 0)) /\
   (exists m, trace (snd (NotifyNow bus (Some t1) st1 (mkState n w))) = Called c m :: w /\
              replaces_id m = Some (VUint32 0))).
Proof.
  intros Hc m1 s1 s2. split.
  - intros Hre h rest Ht1 Hp1 Hid1 Herr Hbody Ht2 Hp2 Hid2.
    assert (Es1 : s1 = mkState (set_replaceID h (set_lastID (currentID t1) n))
                         (Called c m1 :: w)).
    { subst s1.
      rewrite (Notify_emits bus c) by
        (try exact Hc; auto using nothing_playing_false, pause_suppressed_false,
           duplicate_false).
      cbv zeta. cbn [snd]. fold m1.
      now rewrite (store_handle_replied _ _ h rest). }
    subst s2. rewrite Es1.
    rewrite (Notify_emits bus c) by
      (try reflexivity; try exact Hc;
       auto using nothing_playing_false, pause_suppressed_false, duplicate_false).
    cbv zeta. cbn [snd trace]. eexists. split; [reflexivity |].
    rewrite replaces_id_message. unfold replace_target. cbn.
    now rewrite Hre.
  - intros Hre. split.
    + subst s1. rewrite Notify_trace, Hc.
      destruct (nothing_playing t1 || pause_suppressed n st1 || duplicate n t1);
        [now left |].
      right. eexists. split; [reflexivity |].
      rewrite replaces_id_message. unfold replace_target. cbn. now rewrite Hre.
    + cbn [NotifyNow]. rewrite (showNotification_run bus c) by exact Hc.
      cbn [snd trace]. eexists. split; [reflexivity |].
      rewrite replaces_id_message. unfold replace_target. now rewrite Hre.
Qed.

Lemma replace_semantics_witness :
  (exists m2,
     trace (snd (Notify counting_bus (Some different_song) StatePlaying
             (snd (Notify counting_bus (Some bohemian) StatePlaying
                     (fresh (DefaultOptions "Foo")))))) =
       Called 0%nat m2
         :: Called 0%nat (notify_message
                            (set_lastID (currentID bohemian)
                               (this (fresh (DefaultOptions "Foo"))))
                            bohemian StatePlaying)
         :: trace (fresh (DefaultOptions "Foo")) /\
     replaces_id m2 = Some (VUint32 2)) /\
  (exists m,
     trace (snd (NotifyNow counting_bus (Some bohemian) StatePaused
                   (mkState (set_replaceID 41 (this (fresh (stacking "Foo"))))
                            (trace (fresh (stacking "Foo")))))) =
       Called 0%nat m :: trace (fresh (stacking "Foo")) /\
     replaces_id m = Some (VUint32 0)).
Proof.
  split.
  - apply (replace_semantics counting_bus 0%nat
             (this (fresh (DefaultOptions "Foo")))
             (trace (fresh (DefaultOptions "Foo")))
             bohemian different_song StatePlaying StatePlaying eq_refl)
      with (rest := []);
      try reflexivity; try (left; discriminate); discriminate.
  - apply (replace_semantics counting_bus 0%nat
             (set_replaceID 41 (this (fresh (stacking "Foo"))))
             (trace (fresh (stacking "Foo")))
             bohemian bohemian StatePaused StatePaused eq_refl).
    reflexivity.
Defined.

(** ** Formatting *)

(** The formatter of the specification and the fields [showNotification]
    sends agree on everything but the body of a paused track, where the
    code puts the bytes c3 a2 c2 b8 in the place of the pause glyph. *)
Lemma notification_fields_vs_spec (t : TrackInfo) (state : PlaybackState)
    (opts : Options) :
  let f := notification_fields t state opts in
  let g := format_spec t state opts in
  f_appName f = f_appName g /\
  f_icon f = f_icon g /\
  f_summary f = f_summary g /\
  f_actions f = f_actions g /\
  f_hints f = f_hints g /\
  f_timeout f = f_timeout g /\
  (state <> "Paused" -> f_body f = f_body g) /\
  (state = "Paused" ->
   exists base : string,
     f_body g = String "226" (String "143" (String "184" (String " " base))) /\
     f_body f =
       String "195" (String "162" (String "194" (String "184" (String " " base))))).
Proof.
  cbv zeta. unfold notification_fields, format_spec. cbn [f_appName f_icon f_summary f_body f_actions f_hints f_timeout].
  assert (Hbase : body_base t =
                  (if negb (is_empty (Artist t)) && negb (is_empty (Album t))
                   then Artist t ++ String "010" "" ++ Album t
                   else if negb (is_empty (Artist t)) then Artist t
                   else if negb (is_empty (Station t)) then Station t
                   else "Now Playing")).
  { unfold body_base. destruct (Artist t), (Album t), (Station t); reflexivity. }
  split; [now destruct (AppName opts) |].
  split; [now destruct (Icon opts) |].
  split; [now destruct (Title t) |].
  do 3 (split; [reflexivity |]).
  change StatePaused with "Paused".
  destruct (string_dec state "Paused") as [E | E]; split; intros H;
    try contradiction.
  - rewrite <- Hbase. now exists (body_base t).
  - exact Hbase.
Qed.

(** C4.  The body of a paused track does not start with the pause glyph.
    For track A by B on C in state [StatePaused], on a notifier with the
    defaults for "Foo", [NotifyNow] sends app name "Foo", replace id 0,
    icon "media-playback-start", summary "A", no actions, no hints and
    timeout 5000, as the formatter of the specification has them; but the
    body it sends starts with the bytes c3 a2 c2 b8 and a space, where the
    specification has the pause glyph (U+23F8, bytes e2 8f b8) and a
    space. *)
Theorem paused_body_prefix :
  let abc := track "A" "B" "C" in
  let spec := format_spec abc StatePaused (DefaultOptions "Foo") in
  calls (trace (snd (NotifyNow counting_bus (Some abc) StatePaused
                       (fresh (DefaultOptions "Foo"))))) =
    [{| mc_dest := "org.freedesktop.Notifications";
        mc_path := "/org/freedesktop/Notifications";
        mc_method := "org.freedesktop.Notifications.Notify";
        mc_flags := 0;
        mc_args :=
          [VString (f_appName spec); VUint32 0; VString (f_icon spec);
           VString (f_summary spec);
           VString (String "195" (String "162" (String "194" (String "184"
                      (String " " (String "B" (String "010" "C")))))));
           VStrings (f_actions spec); VHints (f_hints spec);
           VInt32 (f_timeout spec)] |};
     capabilities_message] /\
  spec =
    {| f_appName := "Foo";
       f_icon := "media-playback-start";
       f_summary := "A";
       f_body := String "226" (String "143" (String "184"
                   (String " " (String "B" (String "010" "C")))));
       f_actions := [];
       f_hints := [];
       f_timeout := 5000 |} /\
  String "195" (String "162" (String "194" (String "184"
    (String " " (String "B" (String "010" "C")))))) <> f_body spec.
Proof.
  cbv zeta. split; [reflexivity |]. split; [reflexivity | discriminate].
Qed.

(** Apart from that glyph [showNotification] formats as specified.
    Whatever the track, the state and the options, a notifier with a
    connection formats without failing and sends one [Notify] message
    whose arguments are, in order: the app name (or "Music Player"), the
    replace id, the icon (or "media-playback-start"), the summary (the
    title, or "Now Playing"), a body, no actions, no hints, and the
    timeout as given.  In any state but "Paused" the body is the
    specified one: artist and album on two lines, else the artist, else
    the station, else "Now Playing".  In state "Paused" it is that text
    behind the bytes c3 a2 c2 b8 and a space. *)
Theorem showNotification_format_but_glyph (bus : Bus) (c : Conn) (opts : Options)
    (lid : string) (rid : Z) (w : World) (t : TrackInfo) (state : PlaybackState) :
  let n := {| conn := Some c; options := opts; lastID := lid; replaceID := rid |} in
  let f := format_spec t state opts in
  exists (r : option error) (n' : Notifier) (body : string),
    showNotification bus t state (mkState n w) =
      (Val r,
       mkState n'
         (Called c
            {| mc_dest := "org.freedesktop.Notifications";
               mc_path := "/org/freedesktop/Notifications";
               mc_method := "org.freedesktop.Notifications.Notify";
               mc_flags := 0;
               mc_args :=
                 [VString (f_appName f);
                  VUint32 (if ReplaceExisting opts then rid else 0);
                  VString (f_icon f);
                  VString (f_summary f);
                  VString body;
                  VStrings [];
                  VHints [];
                  VInt32 (Timeout opts)] |} :: w)) /\
    (state <> "Paused" -> body = f_body f) /\
    (state = "Paused" ->
     exists base : string,
       f_body (format_spec t "Playing" opts) = base /\
       f_body f = String "226" (String "143" (String "184" (String " " base))) /\
       body =
         String "195" (String "162" (String "194" (String "184" (String " " base))))).
Proof.
  intros n f.
  rewrite (showNotification_run bus c n w t state eq_refl).
  destruct (notification_fields_vs_spec t state opts)
    as (Ha & Hi & Hs & _ & _ & _ & Hb & Hp).
  destruct (notification_fields_vs_spec t "Playing" opts)
    as (_ & _ & _ & _ & _ & _ & Hplay & _).
  exists (transport_result (reply bus w c (notify_message n t state))),
         (store_handle n (reply bus w c (notify_message n t state))),
         (f_body (notification_fields t state opts)).
  split.
  - unfold notify_message, replace_target. subst n f.
    cbn [options replaceID].
    now rewrite Ha, Hi, Hs.
  - split; [exact Hb |].
    intros E. destruct (Hp E) as (base & Hg & Hf).
    exists base. split; [| now split].
    rewrite <- Hplay by discriminate.
    subst state. revert Hf. unfold notification_fields. cbn.
    intros Hf. now injection Hf.
Qed.

Lemma showNotification_format_but_glyph_witness :
  exists (r : option error) (n' : Notifier),
    showNotification counting_bus (track "A" "B" "C") StatePlaying
      (fresh (DefaultOptions "Foo")) =
      (Val r,
       mkState n'
         (Called 0%nat
            {| mc_dest := "org.freedesktop.Notifications";
               mc_path := "/org/freedesktop/Notifications";
               mc_method := "org.freedesktop.Notifications.Notify";
               mc_flags := 0;
               mc_args :=
                 [VString "Foo"; VUint32 0; VString "media-playback-start";
                  VString "A"; VString (String "B" (String "010" "C"));
                  VStrings []; VHints []; VInt32 5000] |}
            :: trace (fresh (DefaultOptions "Foo")))).
Proof.
  destruct (showNotification_format_but_glyph counting_bus 0%nat
              (DefaultOptions "Foo") "" 0 (trace (fresh (DefaultOptions "Foo")))
              (track "A" "B" "C") StatePlaying)
    as (r & n' & body & Hrun & Hbody & _).
  exists r, n'.
  rewrite (Hbody ltac:(discriminate)) in Hrun. exact Hrun.
Defined.

(** ** The guards of [Notify] *)

(** C5.  With [NotifyOnPause] off, [Notify] in state [StatePaused] sends
    nothing and changes nothing, for any track (nil included) and
    whatever identity is stored. *)
Theorem pause_suppression (bus : Bus) (n : Notifier) (w : World)
    (t : option TrackInfo) :
  NotifyOnPause (options n) = false ->
  Notify bus t StatePaused (mkState n w) = (Val None, mkState n w).
Proof.
  intros H. destruct t as [t |]; [| reflexivity].
  apply Notify_suppressed.
  unfold pause_suppressed. rewrite H. cbn. now rewrite orb_true_r.
Qed.

Lemma pause_suppression_witness :
  NotifyOnPause (options (this (fresh (DefaultOptions "Foo")))) = false /\
  Notify counting_bus (Some bohemian) StatePaused
    (mkState (this (fresh (DefaultOptions "Foo")))
             (trace (fresh (DefaultOptions "Foo")))) =
  (Val None, mkState (this (fresh (DefaultOptions "Foo")))
                     (trace (fresh (DefaultOptions "Foo")))).
Proof.
  split; [reflexivity |].
  apply (pause_suppression counting_bus). reflexivity.
Defined.

(** C6.  For a track with empty title and empty artist [Notify] sends
    nothing and stores nothing, in every playback state and from every
    prior state of the notifier: the guard returns before the identity is
    computed or compared. *)
Theorem nothing_playing_guard (bus : Bus) (s : State) (t : TrackInfo)
    (state : PlaybackState) :
  Title t = "" -> Artist t = "" ->
  Notify bus (Some t) state s = (Val None, s).
Proof.
  intros Ht Ha. destruct s as [n w].
  apply Notify_suppressed. unfold nothing_playing. now rewrite Ht, Ha.
Qed.

Lemma nothing_playing_guard_witness :
  Notify counting_bus (Some silence) StatePlaying (fresh (DefaultOptions "Foo")) =
  (Val None, fresh (DefaultOptions "Foo")).
Proof.
  apply (nothing_playing_guard counting_bus); reflexivity.
Defined.

(** ** Transport failure *)

(** C7.  When the transport call made by [Notify] fails with [e], [Notify]
    returns the error "failed to show notification: " wrapping [e]; the
    stored handle is the one from before the attempt; the stored identity
    is the new track's; and a later [Notify] for the same track, in any
    state, is suppressed. *)
Theorem transport_failure (bus : Bus) (c : Conn) (n : Notifier) (w : World)
    (t : TrackInfo) (state : PlaybackState) (e : error) :
  conn n = Some c ->
  Title t <> "" \/ Artist t <> "" ->
  state <> StatePaused \/ NotifyOnPause (options n) = true ->
  currentID t <> lastID n ->
  let m := notify_message (set_lastID (currentID t) n) t state in
  Err (reply bus w c m) = Some e ->
  let r := Notify bus (Some t) state (mkState n w) in
  fst r = Val (Some (Errorf "failed to show notification: " e)) /\
  Unwrap (Errorf "failed to show notification: " e) = Some e /\
  Error (Errorf "failed to show notification: " e) =
    "failed to show notification: " ++ Error e /\
  trace (snd r) = Called c m :: w /\
  replaceID (this (snd r)) = replaceID n /\
  lastID (this (snd r)) = currentID t /\
  forall state' : PlaybackState,
    Notify bus (Some t) state' (snd r) = (Val None, snd r).
Proof.
  intros Hc Ht Hp Hid m Herr r.
  assert (Er : r = (Val (Some (Errorf "failed to show notification: " e)),
                    mkState (set_lastID (currentID t) n) (Called c m :: w))).
  { subst r.
    rewrite (Notify_emits bus c) by
      (try exact Hc; auto using nothing_playing_false, pause_suppressed_false,
         duplicate_false).
    cbv zeta. fold m.
    rewrite (store_handle_failed _ _ e Herr).
    unfold transport_result. now rewrite Herr. }
  rewrite Er. cbn [fst snd this trace set_lastID replaceID lastID].
  repeat split.
  intros state'. apply Notify_suppressed.
  unfold duplicate. cbn [lastID set_lastID].
  rewrite String.eqb_refl. apply orb_true_r.
Qed.

Lemma transport_failure_witness :
  let r := Notify deaf_bus (Some bohemian) StatePlaying
             (mkState (set_replaceID 7 (this (fresh (DefaultOptions "Foo"))))
                      (trace (fresh (DefaultOptions "Foo")))) in
  (exists e, fst r = Val (Some (Errorf "failed to show notification: " e))) /\
  replaceID (this (snd r)) = 7%Z /\
  lastID (this (snd r)) = currentID bohemian /\
  Notify deaf_bus (Some bohemian) StatePlaying (snd r) = (Val None, snd r).
Proof.
  intros r.
  destruct (fun H1 H2 H3 =>
              transport_failure deaf_bus 0%nat
                (set_replaceID 7 (this (fresh (DefaultOptions "Foo"))))
                (trace (fresh (DefaultOptions "Foo")))
                bohemian StatePlaying
                (BusError "The name org.freedesktop.Notifications was not provided by any .service files")
                eq_refl H1 H2 H3 eq_refl)
    as (H1 & _ & _ & _ & H4 & H5 & H6);
    [left; discriminate | left; discriminate | discriminate |].
  split; [eexists; exact H1 |].
  split; [exact H4 |].
  split; [exact H5 | exact (H6 StatePlaying)].
Defined.

(** ** [NotifyNow] *)

(** C8.  [NotifyNow] on a track makes a transport call every time: two
    calls in a row with the same track and state each add one [Notify]
    message to the bus, whatever the title, the artist, the state, the
    options and the stored identity.  On a nil track it does nothing. *)
Theorem NotifyNow_bypasses (bus : Bus) (c : Conn) (n : Notifier) (w : World)
    (t : TrackInfo) (state : PlaybackState) :
  conn n = Some c ->
  let s1 := snd (NotifyNow bus (Some t) state (mkState n w)) in
  let s2 := snd (NotifyNow bus (Some t) state s1) in
  trace s1 = Called c (notify_message n t state) :: w /\
  trace s2 = Called c (notify_message (this s1) t state) :: trace s1 /\
  forall s : State, NotifyNow bus None state s = (Val None, s).
Proof.
  intros Hc s1 s2.
  assert (Es1 : s1 = mkState (store_handle n (reply bus w c (notify_message n t state)))
                       (Called c (notify_message n t state) :: w)).
  { subst s1. cbn [NotifyNow]. now rewrite (showNotification_run bus c) by exact Hc. }
  split; [now rewrite Es1 |].
  split; [| reflexivity].
  subst s2. rewrite Es1. cbn [NotifyNow this trace].
  rewrite (showNotification_run bus c); [reflexivity |].
  destruct (store_handle_frame n (reply bus w c (notify_message n t state)))
    as (-> & _). exact Hc.
Qed.

Lemma NotifyNow_bypasses_witness :
  let s0 := mkState (set_lastID (currentID silence)
                       (this (fresh (DefaultOptions "Foo"))))
                    (trace (fresh (DefaultOptions "Foo"))) in
  let s1 := snd (NotifyNow counting_bus (Some silence) StatePaused s0) in
  let s2 := snd (NotifyNow counting_bus (Some silence) StatePaused s1) in
  calls (trace s2) =
    [notify_message (this s1) silence StatePaused;
     notify_message (this s0) silence StatePaused;
     mkMethodCall notificationsInterface notificationsPath
       "org.freedesktop.Notifications.GetCapabilities" 0 []].
Proof.
  intros s0 s1 s2.
  destruct (NotifyNow_bypasses counting_bus 0%nat (this s0) (trace s0)
              silence StatePaused eq_refl) as (H1 & H2 & _).
  change (trace s2 = Called 0%nat (notify_message (this s1) silence StatePaused)
                       :: trace s1) in H2.
  change (trace s1 = Called 0%nat (notify_message (this s0) silence StatePaused)
                       :: trace s0) in H1.
  rewrite H2, H1. reflexivity.
Defined.

(** C10.  [NotifyNow] never touches the stored identity, the options or
    the connection; so whether a later [Notify] is suppressed is decided
    exactly as it would have been without the [NotifyNow] call. *)
Theorem NotifyNow_keeps_identity (bus : Bus) (s : State)
    (t t' : option TrackInfo) (state state' : PlaybackState) :
  let s1 := snd (NotifyNow bus t state s) in
  lastID (this s1) = lastID (this s) /\
  options (this s1) = options (this s) /\
  conn (this s1) = conn (this s) /\
  (trace (snd (Notify bus t' state' s1)) = trace s1 <->
   trace (snd (Notify bus t' state' s)) = trace s).
Proof.
  intros s1. destruct s as [n w].
  assert (Hframe : lastID (this s1) = lastID n /\ options (this s1) = options n /\
                   conn (this s1) = conn n).
  { subst s1. destruct t as [t |]; [| now repeat split].
    cbn [NotifyNow]. destruct (conn n) as [c |] eqn:Hc.
    - rewrite (showNotification_run bus c) by exact Hc. cbn [snd this].
      destruct (store_handle_frame n (reply bus w c (notify_message n t state)))
        as (-> & -> & ->). now rewrite Hc.
    - rewrite showNotification_nil by exact Hc. cbn [snd this]. now rewrite Hc. }
  destruct Hframe as (Hl & Ho & Hc). cbn [this trace].
  repeat split; try assumption;
    destruct s1 as [n1 w1]; cbn [this trace] in *;
    (destruct t' as [t' |]; [| reflexivity]);
    rewrite !Notify_trace; unfold pause_suppressed, duplicate;
    rewrite Hl, Ho, Hc;
    destruct (nothing_playing t'
              || (state' =? StatePaused) && negb (NotifyOnPause (options n))
              || (currentID t' =? lastID n)); try reflexivity;
    destruct (conn n); try reflexivity;
    intros H; exfalso; exact (cons_neq _ _ H).
Qed.


(** ** Construction *)

(** The availability probe of [NewNotifier]. *)
Lemma probe_message :
  mkMethodCall notificationsInterface notificationsPath
    (notificationsInterface ++ ".GetCapabilities") 0 [] =
  {| mc_dest := "org.freedesktop.Notifications";
     mc_path := "/org/freedesktop/Notifications";
     mc_method := "org.freedesktop.Notifications.GetCapabilities";
     mc_flags := 0;
     mc_args := [] |}.
Proof. reflexivity. Qed.

(** C9.  When the session bus is reached and the capability query then
    fails with [e], [NewNotifier] closes the connection it opened (the
    last thing it does on the bus) and returns the error "D-Bus
    notifications not available: " wrapping [e], and no notifier; the
    connection is not among the open ones afterwards, and the other
    connections are as before. *)
Theorem NewNotifier_probe_failure (bus : Bus) (opts : Options) (w : World)
    (e : error) :
  connect_error bus w = None ->
  let c := length w in
  let probe :=
    {| mc_dest := "org.freedesktop.Notifications";
       mc_path := "/org/freedesktop/Notifications";
       mc_method := "org.freedesktop.Notifications.GetCapabilities";
       mc_flags := 0;
       mc_args := [] |} in
  Err (reply bus (Connected c :: w) c probe) = Some e ->
  let r := NewNotifier bus opts w in
  fst r = Val (inr (Errorf "D-Bus notifications not available: " e)) /\
  snd r = Closed c :: Called c probe :: Connected c :: w /\
  ~ In c (live (snd r)) /\
  forall c' : Conn, c' <> c -> (In c' (live (snd r)) <-> In c' (live w)).
Proof.
  intros Hconn c probe Herr r.
  assert (Er : r = (Val (inr (Errorf "D-Bus notifications not available: " e)),
                    Closed c :: Called c probe :: Connected c :: w)).
  { subst r. unfold NewNotifier, bind, ConnectSessionBus, obj_Call, conn_Close, ret.
    rewrite Hconn. cbn [obj_conn obj_dest obj_path].
    rewrite probe_message. fold c probe. now rewrite Herr. }
  rewrite Er. cbn [fst snd live].
  split; [reflexivity |]. split; [reflexivity |]. split.
  - apply remove_In.
  - intros c' Hne. split; intros H.
    + apply in_remove in H as [H _].
      destruct H as [H | H]; [congruence | exact H].
    + apply in_in_remove; [exact Hne | now right].
Qed.

Lemma NewNotifier_probe_failure_witness :
  exists e,
    NewNotifier deaf_bus (DefaultOptions "Foo") [] =
      (Val (inr (Errorf "D-Bus notifications not available: " e)),
       [Closed 0%nat;
        Called 0%nat (mkMethodCall notificationsInterface notificationsPath
                        "org.freedesktop.Notifications.GetCapabilities" 0 []);
        Connected 0%nat]) /\
    live (snd (NewNotifier deaf_bus (DefaultOptions "Foo") [])) = [].
Proof.
  eexists.
  destruct (NewNotifier_probe_failure deaf_bus (DefaultOptions "Foo") [] _
              eq_refl eq_refl) as (H1 & H2 & _).
  split; [| reflexivity].
  rewrite (surjective_pairing (NewNotifier deaf_bus (DefaultOptions "Foo") [])).
  rewrite H1, H2. reflexivity.
Defined.

(** When the probe succeeds the notifier holds the open connection, no
    identity and no handle. *)
Lemma NewNotifier_ok (bus : Bus) (opts : Options) (w : World) :
  connect_error bus w = None ->
  let c := length w in
  let probe := mkMethodCall notificationsInterface notificationsPath
                 (notificationsInterface ++ ".GetCapabilities") 0 [] in
  Err (reply bus (Connected c :: w) c probe) = None ->
  NewNotifier bus opts w =
    (Val (inl {| conn := Some c; options := opts; lastID := ""; replaceID := 0 |}),
     Called c probe :: Connected c :: w).
Proof.
  intros Hconn c probe Herr.
  unfold NewNotifier, bind, ConnectSessionBus, obj_Call, ret.
  rewrite Hconn. cbn [obj_conn obj_dest obj_path].
  fold c probe. now rewrite Herr.
Qed.

(** ** The scenario of the specification *)

(** A notifier built with the defaults for "Foo" shows track A by B on C
    with summary "A", body "B" and "C" on two lines, the default icon,
    timeout 5000 and replace id 0; the same call again sends nothing; nor
    does the same track in state [StatePaused]. *)
Example scenario :
  let abc := track "A" "B" "C" in
  let s0 := fresh (DefaultOptions "Foo") in
  let s1 := snd (Notify counting_bus (Some abc) StatePlaying s0) in
  trace s1 =
    Called 0%nat
      {| mc_dest := "org.freedesktop.Notifications";
         mc_path := "/org/freedesktop/Notifications";
         mc_method := "org.freedesktop.Notifications.Notify";
         mc_flags := 0;
         mc_args := [VString "Foo"; VUint32 0; VString "media-playback-start";
                     VString "A"; VString ("B" ++ newline ++ "C");
                     VStrings []; VHints []; VInt32 5000] |} :: trace s0 /\
  replaceID (this s1) = 2%Z /\
  Notify counting_bus (Some abc) StatePlaying s1 = (Val None, s1) /\
  Notify counting_bus (Some abc) StatePaused s1 = (Val None, s1).
Proof. repeat split. Qed.

(** A paused radio stream without artist, on a notifier with neither app
    name nor icon configured. *)
Example paused_station :
  notification_fields (mkTrackInfo "" "" "" "KEXP 90.3 FM" "" 0) StatePaused
    (mkOptions "" "" (-1) true false) =
  {| f_appName := "Music Player";
     f_icon := "media-playback-start";
     f_summary := "Now Playing";
     f_body := String "195" (String "162" (String "194" (String "184"
                 " KEXP 90.3 FM")));
     f_actions := [];
     f_hints := [];
     f_timeout := -1 |}.
Proof. reflexivity. Qed.

(** ** Construction and teardown *)

Lemma live_bound (w : World) :
  well_formed w = true -> forall c : Conn, In c (live w) -> c < length w.
Proof.
  induction w as [| [c0 | c0 m | c0] w IH]; cbn; intros Hwf c Hin.
  - contradiction.
  - apply andb_prop in Hwf as [Hc Hwf]. apply Nat.eqb_eq in Hc.
    destruct Hin as [<- | Hin]; [lia |].
    specialize (IH Hwf c Hin). lia.
  - specialize (IH Hwf c Hin). lia.
  - apply in_remove in Hin as [Hin _].
    specialize (IH Hwf c Hin). lia.
Qed.

Lemma next_connection_not_live (w : World) :
  well_formed w = true -> ~ In (length w) (live w).
Proof.
  intros Hwf Hin. apply (live_bound w Hwf) in Hin. lia.
Qed.

(** When the session bus cannot be reached, [NewNotifier] returns the
    error "failed to connect to session bus: " around the cause, gives no
    notifier, and nothing at all has happened on the bus: no probe was
    sent and there is nothing to close. *)
Theorem NewNotifier_connect_failure (bus : Bus) (opts : Options) (w : World)
    (e : error) :
  connect_error bus w = Some e ->
  NewNotifier bus opts w =
    (Val (inr (Errorf "failed to connect to session bus: " e)), w) /\
  Error (Errorf "failed to connect to session bus: " e) =
    "failed to connect to session bus: " ++ Error e.
Proof.
  intros H. split; [| reflexivity].
  unfold NewNotifier, bind, ConnectSessionBus. now rewrite H.
Qed.

Lemma NewNotifier_connect_failure_witness :
  NewNotifier no_session_bus (DefaultOptions "Foo") [] =
    (Val (inr (Errorf "failed to connect to session bus: "
                 (BusError "dbus: DBUS_SESSION_BUS_ADDRESS not set"))), []).
Proof.
  apply (NewNotifier_connect_failure no_session_bus (DefaultOptions "Foo") []).
  reflexivity.
Defined.

(** On a well-formed trace [NewNotifier] acquires a connection exactly
    when it returns a notifier: then the notifier holds the new
    connection, which is the one open connection more than before; on
    either error the open connections are those from before the call.  It
    never panics, and the trace stays well-formed. *)
Theorem NewNotifier_no_leak (bus : Bus) (opts : Options) (w : World) :
  well_formed w = true ->
  let r := NewNotifier bus opts w in
  well_formed (snd r) = true /\
  match fst r with
  | Val (inl n) =>
      conn n = Some (length w) /\ options n = opts /\
      lastID n = "" /\ replaceID n = 0%Z /\
      live (snd r) = length w :: live w
  | Val (inr _) => live (snd r) = live w
  | Panic => False
  end.
Proof.
  intros Hwf r. subst r.
  unfold NewNotifier, bind, ConnectSessionBus, obj_Call, conn_Close, ret.
  destruct (connect_error bus w) as [e |]; [now split |].
  cbn [obj_conn obj_dest obj_path].
  match goal with
  | |- context [Err ?call] => destruct (Err call) as [e |]
  end; cbn [fst snd well_formed live].
  - rewrite Nat.eqb_refl, Hwf. split; [reflexivity |].
    rewrite remove_cons. apply notin_remove.
    now apply next_connection_not_live.
  - rewrite Nat.eqb_refl, Hwf. now repeat split.
Qed.

Lemma NewNotifier_no_leak_witness :
  live (snd (NewNotifier deaf_bus (DefaultOptions "Foo") (trace (fresh (stacking "Bar"))))) =
    live (trace (fresh (stacking "Bar"))) /\
  live (snd (NewNotifier counting_bus (DefaultOptions "Foo") (trace (fresh (stacking "Bar"))))) =
    [2%nat; 0%nat].
Proof.
  split.
  - exact (proj2 (NewNotifier_no_leak deaf_bus (DefaultOptions "Foo")
                    (trace (fresh (stacking "Bar"))) eq_refl)).
  - exact (proj2 (proj2 (proj2 (proj2 (proj2
             (NewNotifier_no_leak counting_bus (DefaultOptions "Foo")
                (trace (fresh (stacking "Bar"))) eq_refl)))))).
Defined.

Lemma NewNotifier_fields (bus : Bus) (opts : Options) (w w1 : World) (n : Notifier) :
  NewNotifier bus opts w = (Val (inl n), w1) ->
  n = {| conn := Some (length w); options := opts; lastID := ""; replaceID := 0 |} /\
  w1 = Called (length w) capabilities_message :: Connected (length w) :: w.
Proof.
  unfold NewNotifier, bind, ConnectSessionBus, obj_Call, conn_Close, ret.
  destruct (connect_error bus w); [discriminate |].
  cbn [obj_conn obj_dest obj_path].
  match goal with
  | |- context [Err ?call] => destruct (Err call)
  end; [discriminate |].
  intros H. injection H as <- <-. now split.
Qed.

Lemma Close_run (bus : Bus) (c : Conn) (n : Notifier) (w : World) :
  conn n = Some c ->
  Close bus (mkState n w) = (Val (close_error bus w c), mkState n (Closed c :: w)).
Proof.
  intros Hc. unfold Close, bind, self. cbn [this]. now rewrite Hc.
Qed.

(** Construction followed by [Close] gives back what construction took:
    on a well-formed trace the open connections after [Close] are those
    from before [NewNotifier], and [Close] returns what closing the
    connection returned. *)
Theorem NewNotifier_Close_round_trip (bus : Bus) (opts : Options) (w : World)
    (n : Notifier) (w1 : World) :
  well_formed w = true ->
  NewNotifier bus opts w = (Val (inl n), w1) ->
  Close bus (mkState n w1) =
    (Val (close_error bus w1 (length w)), mkState n (Closed (length w) :: w1)) /\
  live (Closed (length w) :: w1) = live w.
Proof.
  intros Hwf Hnew.
  apply NewNotifier_fields in Hnew as [-> ->].
  split; [now apply Close_run |].
  cbn [live]. rewrite remove_cons.
  apply notin_remove. now apply next_connection_not_live.
Qed.

Lemma NewNotifier_Close_round_trip_witness :
  live (Closed 0%nat :: trace (fresh (DefaultOptions "Foo"))) = [].
Proof.
  exact (proj2 (NewNotifier_Close_round_trip counting_bus (DefaultOptions "Foo") []
                  (this (fresh (DefaultOptions "Foo")))
                  (trace (fresh (DefaultOptions "Foo"))) eq_refl eq_refl)).
Defined.

(** [Close] on a notifier without a connection does nothing and returns
    nil; on a notifier with one it does not detach it: the notifier is
    unchanged, so a second [Close] closes the same connection again
    (leaving the same connections open as the first), and a [NotifyNow]
    after [Close] still makes its call, on the closed connection. *)
Theorem Close_keeps_connection (bus : Bus) (n : Notifier) (w : World)
    (t : TrackInfo) (state : PlaybackState) :
  (conn n = None -> Close bus (mkState n w) = (Val None, mkState n w)) /\
  (forall c : Conn, conn n = Some c ->
   let s1 := snd (Close bus (mkState n w)) in
   this s1 = n /\
   ~ In c (live (trace s1)) /\
   trace (snd (Close bus s1)) = Closed c :: Closed c :: w /\
   live (trace (snd (Close bus s1))) = live (trace s1) /\
   trace (snd (NotifyNow bus (Some t) state s1)) =
     Called c (notify_message n t state) :: Closed c :: w).
Proof.
  split.
  - intros Hc. unfold Close, bind, self. cbn [this]. now rewrite Hc.
  - intros c Hc s1. subst s1. rewrite (Close_run bus c) by exact Hc.
    cbn [snd this trace].
    split; [reflexivity |].
    split; [cbn [live]; apply remove_In |].
    rewrite (Close_run bus c) by exact Hc. cbn [snd trace].
    split; [reflexivity |].
    split.
    + cbn [live]. apply notin_remove, remove_In.
    + cbn [NotifyNow]. now rewrite (showNotification_run bus c) by exact Hc.
Qed.

Lemma Close_keeps_connection_witness :
  trace (snd (NotifyNow deaf_bus (Some bohemian) StatePlaying
                (snd (Close deaf_bus (fresh (DefaultOptions "Foo")))))) =
    Called 0%nat (notify_message (this (fresh (DefaultOptions "Foo")))
                    bohemian StatePlaying)
      :: Closed 0%nat :: trace (fresh (DefaultOptions "Foo")).
Proof.
  apply (proj2 (Close_keeps_connection deaf_bus (this (fresh (DefaultOptions "Foo")))
                  (trace (fresh (DefaultOptions "Foo"))) bohemian StatePlaying)
           0%nat eq_refl).
Defined.

(** ** Capabilities *)

Lemma GetCapabilities_run (bus : Bus) (c : Conn) (n : Notifier) (w : World) :
  conn n = Some c ->
  GetCapabilities bus (mkState n w) =
    (Val (match Err (reply bus w c capabilities_message) with
          | Some e => inr (Errorf "failed to get capabilities: " e)
          | None =>
              match Body (reply bus w c capabilities_message) with
              | VStrings caps :: _ => inl caps
              | _ => inl []
              end
          end),
     mkState n (Called c capabilities_message :: w)).
Proof.
  intros Hc.
  unfold GetCapabilities, bind, self, on_bus, obj_Call.
  cbn [this trace obj_conn obj_dest obj_path]. rewrite Hc.
  change (mkMethodCall notificationsInterface notificationsPath
            (notificationsInterface ++ ".GetCapabilities") 0 [])
    with capabilities_message.
  destruct (Err (reply bus w c capabilities_message)); [reflexivity |].
  destruct (Body (reply bus w c capabilities_message)) as [| [] ?]; reflexivity.
Qed.

(** [GetCapabilities] sends one argument-less query and never touches the
    notifier.  A failed call comes back as the error "failed to get
    capabilities: " around the cause; a reply whose first value is a
    string array comes back as that array; a reply without values, or
    whose first value is of another type, comes back as the empty list and
    no error. *)
Theorem GetCapabilities_reply (bus : Bus) (c : Conn) (n : Notifier) (w : World) :
  conn n = Some c ->
  let call := reply bus w c capabilities_message in
  let r := GetCapabilities bus (mkState n w) in
  snd r = mkState n (Called c capabilities_message :: w) /\
  (forall e, Err call = Some e ->
     fst r = Val (inr (Errorf "failed to get capabilities: " e))) /\
  (forall caps rest, Err call = None -> Body call = VStrings caps :: rest ->
     fst r = Val (inl caps)) /\
  (Err call = None -> Body call = [] -> fst r = Val (inl [])) /\
  (forall v rest, Err call = None -> Body call = v :: rest ->
     (forall caps, v <> VStrings caps) -> fst r = Val (inl [])).
Proof.
  intros Hc call r. subst r. rewrite (GetCapabilities_run bus c) by exact Hc.
  fold call. cbn [fst snd]. split; [reflexivity |].
  split; [now intros e -> |].
  split; [now intros caps rest -> -> |].
  split; [now intros -> -> |].
  intros v rest -> -> Hv.
  destruct v as [s | z | z | caps | m]; try reflexivity.
  now destruct (Hv caps).
Qed.

Lemma GetCapabilities_reply_witness :
  fst (GetCapabilities capable_bus (fresh (DefaultOptions "Foo"))) =
    Val (inl ["actions"; "body-markup"]) /\
  fst (GetCapabilities mute_bus (fresh (DefaultOptions "Foo"))) = Val (inl []) /\
  fst (GetCapabilities counting_bus (fresh (DefaultOptions "Foo"))) = Val (inl []) /\
  (exists e, fst (GetCapabilities deaf_bus (fresh (DefaultOptions "Foo"))) =
               Val (inr (Errorf "failed to get capabilities: " e))).
Proof.
  split; [| split; [| split]].
  - destruct (GetCapabilities_reply capable_bus 0%nat
                (this (fresh (DefaultOptions "Foo")))
                (trace (fresh (DefaultOptions "Foo"))) eq_refl)
      as (_ & _ & H & _).
    exact (H _ _ eq_refl eq_refl).
  - destruct (GetCapabilities_reply mute_bus 0%nat
                (this (fresh (DefaultOptions "Foo")))
                (trace (fresh (DefaultOptions "Foo"))) eq_refl)
      as (_ & _ & _ & H & _).
    exact (H eq_refl eq_refl).
  - destruct (GetCapabilities_reply counting_bus 0%nat
                (this (fresh (DefaultOptions "Foo")))
                (trace (fresh (DefaultOptions "Foo"))) eq_refl)
      as (_ & _ & _ & _ & H).
    apply (H _ _ eq_refl eq_refl). discriminate.
  - eexists.
    destruct (GetCapabilities_reply deaf_bus 0%nat
                (this (fresh (DefaultOptions "Foo")))
                (trace (fresh (DefaultOptions "Foo"))) eq_refl)
      as (_ & H & _).
    exact (H _ eq_refl).
Defined.

(** ** What a reply does to the stored handle *)

(** A failed [NotifyNow] returns the error "failed to show notification: "
    around the cause and leaves the notifier exactly as it was: identity,
    handle, options and connection. *)
Theorem NotifyNow_failure (bus : Bus) (c : Conn) (n : Notifier) (w : World)
    (t : TrackInfo) (state : PlaybackState) (e : error) :
  conn n = Some c ->
  Err (reply bus w c (notify_message n t state)) = Some e ->
  NotifyNow bus (Some t) state (mkState n w) =
    (Val (Some (Errorf "failed to show notification: " e)),
     mkState n (Called c (notify_message n t state) :: w)).
Proof.
  intros Hc He. cbn [NotifyNow].
  rewrite (showNotification_run bus c) by exact Hc.
  rewrite (store_handle_failed _ _ e He).
  unfold transport_result. now rewrite He.
Qed.

Lemma NotifyNow_failure_witness :
  this (snd (NotifyNow deaf_bus (Some bohemian) StatePlaying
               (fresh (DefaultOptions "Foo")))) =
  this (fresh (DefaultOptions "Foo")).
Proof.
  exact (f_equal (fun r => this (snd r))
           (NotifyNow_failure deaf_bus 0%nat (this (fresh (DefaultOptions "Foo")))
              (trace (fresh (DefaultOptions "Foo"))) bohemian StatePlaying _
              eq_refl eq_refl)).
Defined.

(** A reply without an error is taken as success whatever it carries: if
    it has no values, or its first value is not a uint32, [NotifyNow]
    returns nil and the stored handle stays the one from before. *)
Theorem NotifyNow_reply_without_handle (bus : Bus) (c : Conn) (n : Notifier)
    (w : World) (t : TrackInfo) (state : PlaybackState) :
  conn n = Some c ->
  let call := reply bus w c (notify_message n t state) in
  Err call = None ->
  (Body call = [] \/
   exists v rest, Body call = v :: rest /\ forall h, v <> VUint32 h) ->
  NotifyNow bus (Some t) state (mkState n w) =
    (Val None, mkState n (Called c (notify_message n t state) :: w)).
Proof.
  intros Hc call He Hb. cbn [NotifyNow].
  rewrite (showNotification_run bus c) by exact Hc. fold call.
  unfold transport_result, store_handle. rewrite He.
  destruct (ReplaceExisting (options n)); [| reflexivity].
  destruct Hb as [-> | (v & rest & -> & Hv)]; [reflexivity |].
  destruct v as [s | h | z | l | m]; try reflexivity.
  now destruct (Hv h).
Qed.

Lemma NotifyNow_reply_without_handle_witness :
  NotifyNow capable_bus (Some bohemian) StatePlaying
    (mkState (set_replaceID 7 (this (fresh (DefaultOptions "Foo"))))
             (trace (fresh (DefaultOptions "Foo")))) =
  (Val None,
   mkState (set_replaceID 7 (this (fresh (DefaultOptions "Foo"))))
     (Called 0%nat (notify_message (set_replaceID 7 (this (fresh (DefaultOptions "Foo"))))
                      bohemian StatePlaying)
        :: trace (fresh (DefaultOptions "Foo")))).
Proof.
  apply (NotifyNow_reply_without_handle capable_bus 0%nat
           (set_replaceID 7 (this (fresh (DefaultOptions "Foo"))))
           (trace (fresh (DefaultOptions "Foo"))) bohemian StatePlaying
           eq_refl eq_refl).
  right. eexists _, _. split; [reflexivity | discriminate].
Defined.

(** In stacking mode ([ReplaceExisting] off) no method ever writes the
    stored handle: after [Notify] or [NotifyNow], whatever the daemon
    answered, it is the one from before. *)
Theorem stacking_keeps_handle (bus : Bus) (n : Notifier) (w : World)
    (t : option TrackInfo) (state : PlaybackState) :
  ReplaceExisting (options n) = false ->
  replaceID (this (snd (Notify bus t state (mkState n w)))) = replaceID n /\
  replaceID (this (snd (NotifyNow bus t state (mkState n w)))) = replaceID n.
Proof.
  intros Hre.
  assert (Hshow : forall (n0 : Notifier) (t0 : TrackInfo),
             ReplaceExisting (options n0) = false ->
             replaceID (this (snd (showNotification bus t0 state (mkState n0 w)))) =
             replaceID n0).
  { intros n0 t0 H0. destruct (conn n0) as [c |] eqn:Hc.
    - rewrite (showNotification_run bus c) by exact Hc. cbn [snd this].
      unfold store_handle. rewrite H0.
      now destruct (Err _).
    - now rewrite showNotification_nil by exact Hc. }
  destruct t as [t |]; [| now split].
  split.
  - rewrite Notify_run.
    destruct (nothing_playing t || pause_suppressed n state || duplicate n t);
      [reflexivity |].
    now rewrite Hshow.
  - cbn [NotifyNow]. now apply Hshow.
Qed.

Lemma stacking_keeps_handle_witness :
  replaceID (this (snd (Notify counting_bus (Some bohemian) StatePlaying
                          (mkState (set_replaceID 41 (this (fresh (stacking "Foo"))))
                                   (trace (fresh (stacking "Foo"))))))) = 41%Z.
Proof.
  apply (stacking_keeps_handle counting_bus
           (set_replaceID 41 (this (fresh (stacking "Foo"))))
           (trace (fresh (stacking "Foo"))) (Some bohemian) StatePlaying eq_refl).
Defined.

(** ** More on deduplication *)

Lemma currentID_not_empty (t : TrackInfo) : currentID t <> "".
Proof.
  unfold currentID. destruct (Title t); discriminate.
Qed.

(** The first [Notify] after construction is never mistaken for a
    duplicate: the identity key of a track is never the empty string a
    new notifier starts with, so a track with a title or an artist, not
    held back by the pause guard, is always shown. *)
Theorem first_Notify_emits (bus : Bus) (opts : Options) (w w1 : World)
    (n : Notifier) (t : TrackInfo) (state : PlaybackState) :
  NewNotifier bus opts w = (Val (inl n), w1) ->
  Title t <> "" \/ Artist t <> "" ->
  state <> StatePaused \/ NotifyOnPause opts = true ->
  trace (snd (Notify bus (Some t) state (mkState n w1))) =
    Called (length w) (notify_message (set_lastID (currentID t) n) t state) :: w1 /\
  replaces_id (notify_message (set_lastID (currentID t) n) t state) =
    Some (VUint32 0).
Proof.
  intros Hnew Ht Hp. apply NewNotifier_fields in Hnew as [-> ->].
  rewrite Notify_trace. cbn [conn].
  rewrite (nothing_playing_false t Ht), pause_suppressed_false by exact Hp.
  rewrite duplicate_false by apply currentID_not_empty.
  split; [reflexivity |].
  rewrite replaces_id_message. unfold replace_target. cbn.
  now destruct (ReplaceExisting opts).
Qed.

Lemma first_Notify_emits_witness :
  calls (trace (snd (Notify counting_bus (Some different_song) StatePlaying
                       (fresh (DefaultOptions "Foo"))))) =
    [notify_message (set_lastID (currentID different_song)
                       (this (fresh (DefaultOptions "Foo"))))
       different_song StatePlaying;
     capabilities_message].
Proof.
  assert (H1 : Title different_song <> "" \/ Artist different_song <> "")
    by (left; discriminate).
  assert (H2 : StatePlaying <> StatePaused \/
               NotifyOnPause (DefaultOptions "Foo") = true)
    by (left; discriminate).
  exact (f_equal calls
           (proj1 (first_Notify_emits counting_bus (DefaultOptions "Foo") []
                     (trace (fresh (DefaultOptions "Foo")))
                     (this (fresh (DefaultOptions "Foo")))
                     different_song StatePlaying eq_refl H1 H2))).
Defined.

(** The playback state is no part of the identity: once a track has got
    past the nothing-playing and pause guards, [Notify] for a track with
    the same title, artist and album does nothing in any state.  With
    [NotifyOnPause] on, pausing the track that is showing is therefore not
    announced. *)
Theorem Notify_same_track_any_state (bus : Bus) (n : Notifier) (w : World)
    (t1 t2 : TrackInfo) (st1 st2 : PlaybackState) :
  Title t1 <> "" \/ Artist t1 <> "" ->
  st1 <> StatePaused \/ NotifyOnPause (options n) = true ->
  Title t2 = Title t1 -> Artist t2 = Artist t1 -> Album t2 = Album t1 ->
  let s1 := snd (Notify bus (Some t1) st1 (mkState n w)) in
  Notify bus (Some t2) st2 s1 = (Val None, s1).
Proof.
  intros Ht Hp HT HA HL s1.
  pose proof (Notify_stores_identity bus n w t1 st1
                (nothing_playing_false t1 Ht) (pause_suppressed_false n st1 Hp))
    as Hid.
  fold s1 in Hid. destruct s1 as [n1 w1]. cbn [this] in Hid.
  apply Notify_suppressed. unfold duplicate.
  rewrite Hid, (currentID_key t1 t2 HT HA HL), String.eqb_refl.
  apply orb_true_r.
Qed.

Lemma Notify_same_track_any_state_witness :
  let s1 := snd (Notify counting_bus (Some bohemian) StatePlaying
                   (fresh (stacking "Foo"))) in
  NotifyOnPause (options (this s1)) = true /\
  Notify counting_bus (Some bohemian_on_air) StatePaused s1 = (Val None, s1).
Proof.
  split; [reflexivity |].
  apply (Notify_same_track_any_state counting_bus (this (fresh (stacking "Foo")))
           (trace (fresh (stacking "Foo"))) bohemian bohemian_on_air
           StatePlaying StatePaused); try reflexivity; left; discriminate.
Defined.

(** Only the last identity is remembered: after track 1 and then track 2
    have been shown, track 1 is shown again when it comes back. *)
Theorem Notify_remembers_last_only (bus : Bus) (c : Conn) (n : Notifier)
    (w : World) (t1 t2 : TrackInfo) (state : PlaybackState) :
  conn n = Some c ->
  Title t1 <> "" \/ Artist t1 <> "" ->
  Title t2 <> "" \/ Artist t2 <> "" ->
  state <> StatePaused \/ NotifyOnPause (options n) = true ->
  currentID t2 <> currentID t1 ->
  let s1 := snd (Notify bus (Some t1) state (mkState n w)) in
  let s2 := snd (Notify bus (Some t2) state s1) in
  let s3 := snd (Notify bus (Some t1) state s2) in
  (exists m2, trace s2 = Called c m2 :: trace s1) /\
  (exists m3, trace s3 = Called c m3 :: trace s2).
Proof.
  intros Hc Ht1 Ht2 Hp Hid s1 s2 s3.
  pose proof (Notify_frame bus n w t1 state) as [Hc1 Ho1]. fold s1 in Hc1, Ho1.
  pose proof (Notify_stores_identity bus n w t1 state
                (nothing_playing_false t1 Ht1) (pause_suppressed_false n state Hp))
    as Hl1.
  fold s1 in Hl1. destruct s1 as [n1 w1]. cbn [this trace] in *.
  assert (Hp1 : pause_suppressed n1 state = false)
    by (apply pause_suppressed_false; now rewrite Ho1).
  pose proof (Notify_frame bus n1 w1 t2 state) as [Hc2 Ho2]. fold s2 in Hc2, Ho2.
  pose proof (Notify_stores_identity bus n1 w1 t2 state
                (nothing_playing_false t2 Ht2) Hp1) as Hl2.
  fold s2 in Hl2.
  split.
  - subst s2. rewrite Notify_trace, Hc1, Hc, (nothing_playing_false t2 Ht2), Hp1.
    rewrite duplicate_false by now rewrite Hl1.
    now eexists.
  - subst s3. destruct s2 as [n2 w2]. cbn [this trace] in *.
    rewrite Notify_trace, Hc2, Hc1, Hc, (nothing_playing_false t1 Ht1).
    rewrite pause_suppressed_false by now rewrite Ho2, Ho1.
    rewrite duplicate_false by (rewrite Hl2; congruence).
    now eexists.
Qed.

Lemma Notify_remembers_last_only_witness :
  length (calls (trace
    (snd (Notify counting_bus (Some bohemian) StatePlaying
       (snd (Notify counting_bus (Some different_song) StatePlaying
          (snd (Notify counting_bus (Some bohemian) StatePlaying
                  (fresh (DefaultOptions "Foo")))))))))) = 4%nat.
Proof.
  destruct (fun H1 H2 H3 H4 =>
              Notify_remembers_last_only counting_bus 0%nat
                (this (fresh (DefaultOptions "Foo")))
                (trace (fresh (DefaultOptions "Foo")))
                bohemian different_song StatePlaying eq_refl H1 H2 H3 H4)
    as [_ [m3 H]];
    [left; discriminate | left; discriminate | left; discriminate | discriminate |].
  change (fresh (DefaultOptions "Foo"))
    with (mkState (this (fresh (DefaultOptions "Foo")))
                  (trace (fresh (DefaultOptions "Foo")))).
  rewrite H. reflexivity.
Defined.

(** [Notify] returns an error exactly when it made a transport call and
    that call failed: with a connection it never panics, a suppressed or
    answered call returns nil, and a returned error wraps the error of the
    call just made. *)
Theorem Notify_result (bus : Bus) (c : Conn) (n : Notifier) (w : World)
    (t : option TrackInfo) (state : PlaybackState) :
  conn n = Some c ->
  let r := Notify bus t state (mkState n w) in
  r = (Val None, mkState n w) \/
  (exists m, fst r = Val None /\ trace (snd r) = Called c m :: w /\
             Err (reply bus w c m) = None) \/
  (exists m e, fst r = Val (Some (Errorf "failed to show notification: " e)) /\
               trace (snd r) = Called c m :: w /\
               Err (reply bus w c m) = Some e).
Proof.
  intros Hc r. subst r. destruct t as [t |]; [| now left].
  rewrite Notify_run.
  destruct (nothing_playing t || pause_suppressed n state || duplicate n t);
    [now left |].
  right. rewrite (showNotification_run bus c) by exact Hc.
  cbn [fst snd trace]. unfold transport_result.
  destruct (Err (reply bus w c (notify_message (set_lastID (currentID t) n) t state)))
    as [e |] eqn:He.
  - right. now eexists _, e.
  - left. now eexists.
Qed.

Lemma Notify_result_witness :
  exists e, fst (Notify deaf_bus (Some bohemian) StatePlaying
                   (fresh (DefaultOptions "Foo"))) =
            Val (Some (Errorf "failed to show notification: " e)).
Proof.
  destruct (Notify_result deaf_bus 0%nat (this (fresh (DefaultOptions "Foo")))
              (trace (fresh (DefaultOptions "Foo"))) (Some bohemian) StatePlaying
              eq_refl) as [H | [(m & H & _) | (m & e & H & _)]].
  - discriminate (f_equal fst H).
  - discriminate H.
  - exists e. exact H.
Defined.

(** [Notify] and [NotifyNow] share the stored handle.  In replace mode a
    handle returned to [NotifyNow] is the replace id of the next call
    [Notify] makes, and a handle returned to [Notify] is the replace id of
    the next [NotifyNow]. *)
Theorem handle_is_shared (bus : Bus) (c : Conn) (n : Notifier) (w : World)
    (t1 t2 : TrackInfo) (st1 st2 : PlaybackState) (h : Z) (rest : list Value) :
  conn n = Some c ->
  ReplaceExisting (options n) = true ->
  (let m1 := notify_message n t1 st1 in
   Err (reply bus w c m1) = None ->
   Body (reply bus w c m1) = VUint32 h :: rest ->
   Title t2 <> "" \/ Artist t2 <> "" ->
   st2 <> StatePaused \/ NotifyOnPause (options n) = true ->
   currentID t2 <> lastID n ->
   exists m2,
     trace (snd (Notify bus (Some t2) st2
                   (snd (NotifyNow bus (Some t1) st1 (mkState n w))))) =
       Called c m2 :: Called c m1 :: w /\
     replaces_id m2 = Some (VUint32 h)) /\
  (let m1 := notify_message (set_lastID (currentID t1) n) t1 st1 in
   Title t1 <> "" \/ Artist t1 <> "" ->
   st1 <> StatePaused \/ NotifyOnPause (options n) = true ->
   currentID t1 <> lastID n ->
   Err (reply bus w c m1) = None ->
   Body (reply bus w c m1) = VUint32 h :: rest ->
   exists m2,
     trace (snd (NotifyNow bus (Some t2) st2
                   (snd (Notify bus (Some t1) st1 (mkState n w))))) =
       Called c m2 :: Called c m1 :: w /\
     replaces_id m2 = Some (VUint32 h)).
Proof.
  intros Hc Hre. split; intros m1.
  - intros He Hb Ht2 Hp2 Hid.
    cbn [NotifyNow]. rewrite (showNotification_run bus c) by exact Hc.
    fold m1. cbn [snd]. rewrite (store_handle_replied n _ h rest Hre He Hb).
    rewrite (Notify_emits bus c) by
      (try exact Hc; auto using nothing_playing_false, pause_suppressed_false,
         duplicate_false).
    cbv zeta. cbn [snd trace]. eexists. split; [reflexivity |].
    rewrite replaces_id_message. unfold replace_target. cbn. now rewrite Hre.
  - intros Ht1 Hp1 Hid He Hb.
    rewrite (Notify_emits bus c) by
      (try exact Hc; auto using nothing_playing_false, pause_suppressed_false,
         duplicate_false).
    cbv zeta. fold m1. cbn [snd].
    rewrite (store_handle_replied _ _ h rest) by assumption.
    cbn [NotifyNow]. rewrite (showNotification_run bus c) by exact Hc.
    cbn [snd trace]. eexists. split; [reflexivity |].
    rewrite replaces_id_message. unfold replace_target. cbn. now rewrite Hre.
Qed.

Lemma handle_is_shared_witness :
  exists m2,
    trace (snd (Notify counting_bus (Some different_song) StatePlaying
                  (snd (NotifyNow counting_bus (Some bohemian) StatePaused
                          (mkState (this (fresh (DefaultOptions "Foo")))
                                   (trace (fresh (DefaultOptions "Foo"))))))))
      = Called 0%nat m2
          :: Called 0%nat (notify_message (this (fresh (DefaultOptions "Foo")))
                             bohemian StatePaused)
          :: trace (fresh (DefaultOptions "Foo")) /\
    replaces_id m2 = Some (VUint32 2).
Proof.
  apply (proj1 (handle_is_shared counting_bus 0%nat
                  (this (fresh (DefaultOptions "Foo")))
                  (trace (fresh (DefaultOptions "Foo")))
                  bohemian different_song StatePaused StatePlaying 2 []
                  eq_refl eq_refl));
    try reflexivity; try (left; discriminate); discriminate.
Defined.

Lemma currentID_injective_without_dash_witness :
  currentID bohemian = currentID bohemian_on_air /\
  Title bohemian = Title bohemian_on_air /\
  Artist bohemian = Artist bohemian_on_air /\
  Album bohemian = Album bohemian_on_air.
Proof.
  split; [reflexivity |].
  apply (currentID_injective_without_dash bohemian bohemian_on_air);
    reflexivity.
Defined.

(** With [DefaultOptions] a notifier replaces its notification (the
    stored handle is the replace id), asks for the icon
    "media-playback-start" and a timeout of 5000 ms, names the application
    as given, "Music Player" if no name was given, and never notifies in
    state [StatePaused]. *)
Theorem DefaultOptions_behaviour (bus : Bus) (c : Conn) (appName lid : string)
    (rid : Z) (w : World) (t : TrackInfo) (state : PlaybackState) :
  let n := {| conn := Some c; options := DefaultOptions appName;
              lastID := lid; replaceID := rid |} in
  (exists summary body,
     calls (trace (snd (NotifyNow bus (Some t) state (mkState n w)))) =
       {| mc_dest := "org.freedesktop.Notifications";
          mc_path := "/org/freedesktop/Notifications";
          mc_method := "org.freedesktop.Notifications.Notify";
          mc_flags := 0;
          mc_args := [VString (if appName =? "" then "Music Player" else appName);
                      VUint32 rid; VString "media-playback-start";
                      VString summary; VString body;
                      VStrings []; VHints []; VInt32 5000] |} :: calls w) /\
  Notify bus (Some t) StatePaused (mkState n w) = (Val None, mkState n w).
Proof.
  intros n. split.
  - cbn [NotifyNow]. rewrite (showNotification_run bus c n w t state eq_refl).
    cbn [snd trace calls]. unfold notify_message, replace_target. cbn.
    rewrite or_default_eqb. now eexists _, _.
  - apply Notify_suppressed. unfold pause_suppressed. cbn.
    now rewrite orb_true_r.
Qed.

(** ** Sessions *)

Lemma calls_app (evs w : World) : calls (evs ++ w)%list = (calls evs ++ calls w)%list.
Proof.
  induction evs as [| [c | c m | c] evs IH]; cbn; now rewrite ?IH.
Qed.

Lemma live_calls_only (c : Conn) (evs w : World) :
  forallb (call_on c) evs = true -> live (evs ++ w)%list = live w.
Proof.
  induction evs as [| [c0 | c0 m | c0] evs IH]; cbn; intros H;
    try discriminate; [reflexivity |].
  apply andb_prop in H as [_ H]. now apply IH.
Qed.

Lemma well_formed_calls_only (c : Conn) (evs w : World) :
  forallb (call_on c) evs = true -> well_formed (evs ++ w)%list = well_formed w.
Proof.
  induction evs as [| [c0 | c0 m | c0] evs IH]; cbn; intros H;
    try discriminate; [reflexivity |].
  apply andb_prop in H as [_ H]. now apply IH.
Qed.

Lemma stacking_message (n : Notifier) (t : TrackInfo) (state : PlaybackState) :
  ReplaceExisting (options n) = false ->
  replaces_id (notify_message n t state) = Some (VUint32 0).
Proof.
  intros H. rewrite replaces_id_message. unfold replace_target. now rewrite H.
Qed.

Lemma store_handle_stacking (n : Notifier) (call : Call) :
  ReplaceExisting (options n) = false -> store_handle n call = n.
Proof.
  intros H. unfold store_handle. rewrite H. now destruct (Err call).
Qed.

Lemma show_step (bus : Bus) (c : Conn) (op : Op) (n0 n : Notifier) (w : World)
    (t : TrackInfo) (state : PlaybackState) :
  conn n = Some c ->
  conn n0 = conn n -> options n0 = options n -> replaceID n0 = replaceID n ->
  (lastID n = lastID n0 \/
   exists t' st, op = OpNotify (Some t') st /\ lastID n = currentID t') ->
  exists n' evs,
    bind (showNotification bus t state) (fun _ => ret tt) (mkState n w) =
      (Val tt, mkState n' (evs ++ w)%list) /\
    step_ok c op n0 n' evs.
Proof.
  intros Hc Hc0 Ho0 Hr0 Hid.
  unfold bind. rewrite (showNotification_run bus c) by exact Hc.
  eexists _, [_]. split; [reflexivity |].
  destruct (store_handle_frame n (reply bus w c (notify_message n t state)))
    as (Hc' & Ho' & Hl').
  constructor.
  - now rewrite Hc'.
  - now rewrite Ho'.
  - cbn; lia.
  - cbn. now rewrite Nat.eqb_refl.
  - rewrite Hl'. destruct Hid as [-> | Hid]; [now left | now right].
  - intros Hre. rewrite Ho0 in Hre.
    rewrite store_handle_stacking by exact Hre. split; [now symmetry |].
    cbn [calls]. constructor; [| constructor]. right. now apply stacking_message.
Qed.

Lemma idle_step (c : Conn) (op : Op) (n : Notifier) :
  conn n = Some c -> step_ok c op n n [].
Proof.
  intros Hc. constructor; cbn; auto.
Qed.

Lemma do_op_step (bus : Bus) (c : Conn) (op : Op) (n : Notifier) (w : World) :
  conn n = Some c ->
  exists n' evs,
    do_op bus op (mkState n w) = (Val tt, mkState n' (evs ++ w)%list) /\
    step_ok c op n n' evs.
Proof.
  intros Hc. destruct op as [[t |] st | [t |] st |]; cbn [do_op].
  - unfold bind at 1. rewrite Notify_run.
    destruct (nothing_playing t || pause_suppressed n st || duplicate n t).
    + exists n, []. split; [reflexivity | now apply idle_step].
    + apply (show_step bus c (OpNotify (Some t) st) n
               (set_lastID (currentID t) n) w t st); try reflexivity; try exact Hc.
      right. now eexists _, _.
  - exists n, []. split; [reflexivity | now apply idle_step].
  - cbn [NotifyNow].
    apply (show_step bus c (OpNotifyNow (Some t) st) n n w t st);
      try reflexivity; try exact Hc. now left.
  - exists n, []. split; [reflexivity | now apply idle_step].
  - unfold bind at 1. rewrite (GetCapabilities_run bus c) by exact Hc.
    exists n, [Called c capabilities_message]. split; [reflexivity |].
    constructor; cbn; auto.
    now rewrite Nat.eqb_refl.
Qed.

(** The invariant of a session, by induction on the calls made. *)
Lemma run_invariant (bus : Bus) (c : Conn) (ops : list Op) :
  forall (n : Notifier) (w : World),
  conn n = Some c ->
  exists n' evs,
    run bus ops (mkState n w) = (Val tt, mkState n' (evs ++ w)%list) /\
    conn n' = Some c /\
    options n' = options n /\
    length evs <= length ops /\
    forallb (call_on c) evs = true /\
    (lastID n' = lastID n \/
     exists t st, In (OpNotify (Some t) st) ops /\ lastID n' = currentID t) /\
    (ReplaceExisting (options n) = false ->
     replaceID n' = replaceID n /\
     Forall (fun m => m = capabilities_message \/
                      replaces_id m = Some (VUint32 0)) (calls evs)).
Proof.
  induction ops as [| op ops IH]; intros n w Hc.
  - exists n, []. cbn. repeat split; auto.
  - destruct (do_op_step bus c op n w Hc) as (n1 & evs1 & Hstep & Hok).
    destruct Hok as [Hc1 Ho1 Hlen1 Hcalls1 Hid1 Hst1].
    destruct (IH n1 (evs1 ++ w)%list Hc1)
      as (n2 & evs2 & Hrun & Hc2 & Ho2 & Hlen2 & Hcalls2 & Hid2 & Hst2).
    exists n2, (evs2 ++ evs1)%list.
    split.
    { cbn [run]. unfold bind at 1. rewrite Hstep, Hrun. now rewrite app_assoc. }
    split; [exact Hc2 |].
    split; [congruence |].
    split; [rewrite length_app; cbn [length]; lia |].
    split; [rewrite forallb_app; now rewrite Hcalls1, Hcalls2 |].
    split.
    + destruct Hid2 as [Hid2 | (t & st & Hin & Hid2)].
      * rewrite Hid2. destruct Hid1 as [Hid1 | (t & st & -> & Hid1)]; [now left |].
        right. exists t, st. split; [now left | exact Hid1].
      * right. exists t, st. split; [now right | exact Hid2].
    + intros Hre. destruct (Hst1 Hre) as [Hr1 Hf1].
      rewrite <- Ho1 in Hre. destruct (Hst2 Hre) as [Hr2 Hf2].
      split; [congruence |].
      rewrite calls_app. apply Forall_app. now split.
Qed.

(** Whatever sequence of [Notify], [NotifyNow] and [GetCapabilities] calls
    a player makes on a notifier that has a connection, no call panics,
    and the notifier keeps its connection and its options; the session
    opens and closes no connection, so the open connections are those
    from before, and a well-formed trace stays well-formed. *)
Theorem session_keeps_configuration (bus : Bus) (c : Conn) (n : Notifier)
    (w : World) (ops : list Op) :
  conn n = Some c ->
  let r := run bus ops (mkState n w) in
  fst r = Val tt /\
  conn (this (snd r)) = Some c /\
  options (this (snd r)) = options n /\
  live (trace (snd r)) = live w /\
  well_formed (trace (snd r)) = well_formed w.
Proof.
  intros Hc r.
  destruct (run_invariant bus c ops n w Hc)
    as (n' & evs & Hrun & Hc' & Ho' & _ & Hcalls & _).
  subst r. rewrite Hrun. cbn [fst snd this trace].
  repeat split; try assumption.
  - now apply (live_calls_only c).
  - now apply (well_formed_calls_only c).
Qed.

Lemma session_keeps_configuration_witness :
  let r := run counting_bus
             [OpNotify (Some bohemian) StatePlaying; OpGetCapabilities;
              OpNotifyNow (Some silence) StatePaused; OpNotify None StatePlaying]
             (fresh (DefaultOptions "Foo")) in
  fst r = Val tt /\ live (trace (snd r)) = [0%nat].
Proof.
  intros r.
  destruct (session_keeps_configuration counting_bus 0%nat
              (this (fresh (DefaultOptions "Foo")))
              (trace (fresh (DefaultOptions "Foo")))
              [OpNotify (Some bohemian) StatePlaying; OpGetCapabilities;
               OpNotifyNow (Some silence) StatePaused; OpNotify None StatePlaying]
              eq_refl) as (H1 & _ & _ & H4 & _).
  split; [exact H1 | exact H4].
Defined.

(** Every method makes at most one transport call, and only on the
    notifier's own connection: a session of k calls adds at most k events
    to the trace, each of them a method call on that connection. *)
Theorem session_calls (bus : Bus) (c : Conn) (n : Notifier) (w : World)
    (ops : list Op) :
  conn n = Some c ->
  exists evs : World,
    trace (snd (run bus ops (mkState n w))) = (evs ++ w)%list /\
    length evs <= length ops /\
    forallb (call_on c) evs = true.
Proof.
  intros Hc.
  destruct (run_invariant bus c ops n w Hc)
    as (n' & evs & Hrun & _ & _ & Hlen & Hcalls & _).
  exists evs. rewrite Hrun. now repeat split.
Qed.

Lemma session_calls_witness :
  exists evs : World,
    trace (snd (run counting_bus
                  [OpNotify (Some bohemian) StatePlaying;
                   OpNotify (Some bohemian_on_air) StatePlaying;
                   OpNotifyNow (Some bohemian) StatePlaying]
                  (mkState (this (fresh (DefaultOptions "Foo")))
                           (trace (fresh (DefaultOptions "Foo")))))) =
      (evs ++ trace (fresh (DefaultOptions "Foo")))%list /\
    length evs <= 3 /\
    forallb (call_on 0%nat) evs = true.
Proof.
  apply (session_calls counting_bus 0%nat (this (fresh (DefaultOptions "Foo")))
           (trace (fresh (DefaultOptions "Foo")))
           [OpNotify (Some bohemian) StatePlaying;
            OpNotify (Some bohemian_on_air) StatePlaying;
            OpNotifyNow (Some bohemian) StatePlaying] eq_refl).
Defined.

(** In stacking mode a whole session leaves the stored handle alone, and
    every [Notify] message it sends carries replace id 0: each call the
    session adds is the capability query or has replace id 0. *)
Theorem session_stacking (bus : Bus) (c : Conn) (n : Notifier) (w : World)
    (ops : list Op) :
  conn n = Some c ->
  ReplaceExisting (options n) = false ->
  let s := snd (run bus ops (mkState n w)) in
  replaceID (this s) = replaceID n /\
  exists sent : list MethodCall,
    calls (trace s) = (sent ++ calls w)%list /\
    Forall (fun m => m = capabilities_message \/
                     replaces_id m = Some (VUint32 0)) sent.
Proof.
  intros Hc Hre s.
  destruct (run_invariant bus c ops n w Hc)
    as (n' & evs & Hrun & _ & _ & _ & _ & _ & Hst).
  destruct (Hst Hre) as [Hr Hf].
  subst s. rewrite Hrun. cbn [snd this trace].
  split; [exact Hr |].
  exists (calls evs). split; [apply calls_app | exact Hf].
Qed.

Lemma session_stacking_witness :
  replaceID (this (snd (run counting_bus
                          [OpNotify (Some bohemian) StatePlaying;
                           OpNotifyNow (Some bohemian) StatePaused;
                           OpGetCapabilities;
                           OpNotify (Some different_song) StatePaused]
                          (mkState (set_replaceID 41 (this (fresh (stacking "Foo"))))
                                   (trace (fresh (stacking "Foo"))))))) = 41%Z.
Proof.
  apply (session_stacking counting_bus 0%nat
           (set_replaceID 41 (this (fresh (stacking "Foo"))))
           (trace (fresh (stacking "Foo")))
           [OpNotify (Some bohemian) StatePlaying;
            OpNotifyNow (Some bohemian) StatePaused;
            OpGetCapabilities;
            OpNotify (Some different_song) StatePaused] eq_refl eq_refl).
Defined.

(** The stored identity only ever comes from [Notify]: after a session it
    is the one the notifier started with or the key of a track some
    [Notify] call of the session was given. *)
Theorem session_identity (bus : Bus) (c : Conn) (n : Notifier) (w : World)
    (ops : list Op) :
  conn n = Some c ->
  let s := snd (run bus ops (mkState n w)) in
  lastID (this s) = lastID n \/
  exists t st, In (OpNotify (Some t) st) ops /\ lastID (this s) = currentID t.
Proof.
  intros Hc s.
  destruct (run_invariant bus c ops n w Hc)
    as (n' & evs & Hrun & _ & _ & _ & _ & Hid & _).
  subst s. rewrite Hrun. exact Hid.
Qed.

Lemma session_identity_witness :
  lastID (this (snd (run counting_bus
                       [OpNotifyNow (Some bohemian) StatePlaying;
                        OpGetCapabilities;
                        OpNotifyNow (Some different_song) StatePlaying]
                       (mkState (this (fresh (DefaultOptions "Foo")))
                                (trace (fresh (DefaultOptions "Foo"))))))) = "".
Proof.
  destruct (session_identity counting_bus 0%nat
              (this (fresh (DefaultOptions "Foo")))
              (trace (fresh (DefaultOptions "Foo")))
              [OpNotifyNow (Some bohemian) StatePlaying;
               OpGetCapabilities;
               OpNotifyNow (Some different_song) StatePlaying] eq_refl)
    as [H | (t & st & [H | [H | [H | []]]] & _)];
    [exact H | discriminate H | discriminate H | discriminate H].
Defined.

(** ** What the message depends on *)

Lemma or_default_not_empty (s d : string) : d <> "" -> or_default s d <> "".
Proof. destruct s; [easy | discriminate]. Qed.

Lemma body_base_not_empty (t : TrackInfo) : body_base t <> "".
Proof.
  unfold body_base.
  destruct (Artist t) eqn:Ea, (Album t) eqn:El, (Station t) eqn:Es;
    discriminate.
Qed.

(** A notification never goes out with an empty text: app name, icon,
    summary and body of the message [NotifyNow] sends are all non-empty,
    whatever the track and the options hold. *)
Theorem message_fields_not_empty (bus : Bus) (c : Conn) (opts : Options)
    (lid : string) (rid : Z) (w : World) (t : TrackInfo) (state : PlaybackState) :
  let n := {| conn := Some c; options := opts; lastID := lid; replaceID := rid |} in
  exists (appName icon summary body : string) (r : Z),
    calls (trace (snd (NotifyNow bus (Some t) state (mkState n w)))) =
      {| mc_dest := "org.freedesktop.Notifications";
         mc_path := "/org/freedesktop/Notifications";
         mc_method := "org.freedesktop.Notifications.Notify";
         mc_flags := 0;
         mc_args := [VString appName; VUint32 r; VString icon; VString summary;
                     VString body; VStrings []; VHints [];
                     VInt32 (Timeout opts)] |} :: calls w /\
    appName <> "" /\ icon <> "" /\ summary <> "" /\ body <> "".
Proof.
  intros n. cbn [NotifyNow].
  rewrite (showNotification_run bus c n w t state eq_refl).
  cbn [snd trace calls]. unfold notify_message. cbn.
  eexists _, _, _, _, _. split; [reflexivity |].
  repeat split; try (apply or_default_not_empty; discriminate).
  destruct (string_dec state StatePaused).
  - discriminate.
  - apply body_base_not_empty.
Qed.

Lemma showNotification_ext (bus : Bus) (n : Notifier) (w : World)
    (t t' : TrackInfo) (st st' : PlaybackState) :
  notify_message n t st = notify_message n t' st' ->
  showNotification bus t st (mkState n w) = showNotification bus t' st' (mkState n w).
Proof.
  intros H. destruct (conn n) as [c |] eqn:Hc.
  - rewrite !(showNotification_run bus c) by exact Hc. now rewrite H.
  - now rewrite !showNotification_nil by exact Hc.
Qed.

Lemma Notify_ext (bus : Bus) (n : Notifier) (w : World)
    (t t' : TrackInfo) (st st' : PlaybackState) :
  Title t' = Title t -> Artist t' = Artist t -> Album t' = Album t ->
  pause_suppressed n st' = pause_suppressed n st ->
  (forall n0, notify_message n0 t st = notify_message n0 t' st') ->
  Notify bus (Some t) st (mkState n w) = Notify bus (Some t') st' (mkState n w).
Proof.
  intros HT HA HL Hp Hm. rewrite !Notify_run.
  unfold nothing_playing, duplicate.
  rewrite (currentID_key t t' HT HA HL), HT, HA, Hp.
  destruct ((Title t =? "") && (Artist t =? "") || pause_suppressed n st
            || (currentID t =? lastID n)); [reflexivity |].
  now apply showNotification_ext.
Qed.

(** Image URL and duration are never read: two tracks that agree on
    title, artist, album and station get the same treatment from [Notify]
    and from [NotifyNow], result and effects alike.  Nor is the station of
    a track that has an artist: [NotifyNow] then sends the same message
    whatever the station. *)
Theorem unused_fields (bus : Bus) (s : State) (t t' : TrackInfo)
    (state : PlaybackState) :
  Title t' = Title t -> Artist t' = Artist t -> Album t' = Album t ->
  (Station t' = Station t ->
   Notify bus (Some t') state s = Notify bus (Some t) state s /\
   NotifyNow bus (Some t') state s = NotifyNow bus (Some t) state s) /\
  (Artist t <> "" ->
   Notify bus (Some t') state s = Notify bus (Some t) state s /\
   NotifyNow bus (Some t') state s = NotifyNow bus (Some t) state s).
Proof.
  intros HT HA HL. destruct s as [n w].
  assert (Hsame : (forall n0, notify_message n0 t state = notify_message n0 t' state) ->
                  Notify bus (Some t') state (mkState n w) =
                    Notify bus (Some t) state (mkState n w) /\
                  NotifyNow bus (Some t') state (mkState n w) =
                    NotifyNow bus (Some t) state (mkState n w)).
  { intros Hm. split.
    - symmetry. now apply Notify_ext.
    - cbn [NotifyNow]. symmetry. now apply showNotification_ext. }
  split.
  - intros HS. apply Hsame. intros n0.
    unfold notify_message, notification_fields, body_base. now rewrite HT, HA, HL, HS.
  - intros Hne. apply Hsame. intros n0.
    unfold notify_message, notification_fields, body_base. rewrite HT, HA, HL.
    destruct (Artist t); [now destruct Hne | reflexivity].
Qed.

Lemma unused_fields_witness :
  NotifyNow counting_bus (Some bohemian_on_air) StatePlaying
    (fresh (DefaultOptions "Foo")) =
  NotifyNow counting_bus (Some bohemian) StatePlaying
    (fresh (DefaultOptions "Foo")).
Proof.
  destruct (unused_fields counting_bus (fresh (DefaultOptions "Foo"))
              bohemian bohemian_on_air StatePlaying eq_refl eq_refl eq_refl)
    as [_ H].
  destruct H as [_ H]; [discriminate | exact H].
Defined.

(** The playback state matters only through being [StatePaused] or not:
    [Notify] and [NotifyNow] treat any two states other than
    [StatePaused] alike, so a stopped track is announced like a playing
    one. *)
Theorem only_paused_matters (bus : Bus) (s : State) (t : option TrackInfo)
    (st1 st2 : PlaybackState) :
  st1 <> StatePaused -> st2 <> StatePaused ->
  Notify bus t st1 s = Notify bus t st2 s /\
  NotifyNow bus t st1 s = NotifyNow bus t st2 s.
Proof.
  intros H1 H2. destruct s as [n w]. destruct t as [t |]; [| now split].
  assert (Hm : forall n0, notify_message n0 t st1 = notify_message n0 t st2).
  { intros n0. unfold notify_message, notification_fields.
    destruct (string_dec st1 StatePaused); [contradiction |].
    destruct (string_dec st2 StatePaused); [contradiction | reflexivity]. }
  split.
  - apply Notify_ext; try reflexivity; [| exact Hm].
    unfold pause_suppressed.
    apply String.eqb_neq in H1, H2. now rewrite H1, H2.
  - cbn [NotifyNow]. now apply showNotification_ext.
Qed.

Lemma only_paused_matters_witness :
  Notify counting_bus (Some bohemian) StateStopped (fresh (DefaultOptions "Foo")) =
  Notify counting_bus (Some bohemian) StatePlaying (fresh (DefaultOptions "Foo")).
Proof.
  apply (only_paused_matters counting_bus (fresh (DefaultOptions "Foo"))
           (Some bohemian) StateStopped StatePlaying); discriminate.
Defined.
